(** * sellsuki-go-logger: a shallow embedding of [slog.go]

    The package is a facade over a zap logger.  The embedding keeps the
    source's names.  Go values that travel through [interface{}] are the
    inductive type [value]; Go maps that may be nil are [option (gmap ..)];
    the zap backend (building a logger, syncing it, handing it an entry) is
    kept as an interface: what the package passes to it is recorded, what
    zap then does with it is not modelled. *)

From Stdlib Require Import ZArith PrimFloat.
From stdpp Require Import gmap strings list fin_maps.

Set Warnings "-register-all".

Open Scope string_scope.
Open Scope Z_scope.

(** ** Data model (slog.go, lines 10-114) *)

(** [type LogLevel int8] with its six constants. *)
Definition LogLevel := Z.
Definition LevelDebug : LogLevel := -1.
Definition LevelInfo : LogLevel := 0.
Definition LevelWarn : LogLevel := 1.
Definition LevelError : LogLevel := 2.
Definition LevelPanic : LogLevel := 4.
Definition LevelFatal : LogLevel := 5.

(** [type AlertLevel int]; [LevelNone] and [LevelAlert] are package
    variables that nothing in the package assigns. *)
Definition AlertLevel := Z.
Definition LevelNone : AlertLevel := 0.
Definition LevelAlert : AlertLevel := 1.

Record Config := {
  cfg_LogLevel : LogLevel;
  AppName : string;
  Version : string;
  MaxBodySize : Z
}.

Record LogOption := { Alert : AlertLevel }.

Record TraceInfo := {
  TraceID : string;
  SpanID : string;
  RequestID : string
}.

(** [map[string]string]: [None] is the nil map, [Some m] an allocated one. *)
Abbreviation go_map := (option (gmap string string)).

Record HTTPRequestInfo := {
  Method : string;
  Path : string;
  RemoteIP : string;
  req_Headers : go_map;
  Params : go_map;
  Query : go_map;
  req_Body : string
}.

Record ErrorInfo := {
  Name : string;
  StackTrace : string
}.

Record HTTPResponseInfo := {
  Status : Z;
  resp_Duration : float;
  resp_Body : string;
  resp_Error : ErrorInfo
}.

(** [time.Time] is carried and never inspected: an instant in nanoseconds. *)
Definition time_Time := Z.

Record KafkaMessage := {
  Topic : string;
  Partition : Z;
  Offset : Z;
  kafka_Headers : go_map;
  kafka_Key : string;
  Payload : string;
  Timestamp : time_Time
}.

Record KafkaResult := {
  kafka_Duration : float;
  kafka_Error : ErrorInfo
}.

Definition EventAction := string.
Definition EventResult := string.
Definition ActionCreate : EventAction := "create".
Definition ActionUpdate : EventAction := "update".
Definition ActionDelete : EventAction := "delete".
Definition ResultSuccess : EventResult := "success".
Definition ResultCompensate : EventResult := "compensate".

Record EventLog := {
  Entity : string;
  Action : EventAction;
  Result : EventResult;
  ReferenceID : string;
  Data : string
}.

(** A Go value behind [interface{}], tagged with its dynamic type.  The
    type switches of the package tell [TraceInfo], [LogField], [LogOption],
    [string], [error] and the nil interface apart; every other dynamic type
    falls through them alike.  [VError msg] is a value of any type that
    implements [error], [msg] being what its [Error()] returns.  [VLogField]
    is the struct [LogField{Key, Value}]. *)
Inductive value : Type :=
  | VNil
  | VString (s : string)
  | VInt (n : Z)
  | VBool (b : bool)
  | VFloat (f : float)
  | VError (msg : string)
  | VTraceInfo (t : TraceInfo)
  | VLogOption (o : LogOption)
  | VLogField (key : string) (val : value)
  | VErrorInfo (e : ErrorInfo)
  | VHTTPRequestInfo (r : HTTPRequestInfo)
  | VHTTPResponseInfo (r : HTTPResponseInfo)
  | VKafkaMessage (m : KafkaMessage)
  | VKafkaResult (r : KafkaResult)
  | VEventLog (e : EventLog)
  | VMap (m : gmap string value)
  | VOther (type_name : string).

Record LogField := {
  Key : string;
  Value : value
}.

Definition of_LogField (f : LogField) : value := VLogField (Key f) (Value f).

(** ** Field primitives (lines 116-145) *)

Definition Any (key : string) (v : value) : LogField :=
  {| Key := key; Value := v |}.

(** The package function [Error(err error)]: [None] is the nil error,
    [Some msg] an error whose message is [msg].  (The name [Error] is left
    to the method of [SukiLogger] below.) *)
Definition Error_field (err : option string) : LogField :=
  match err with
  | Some msg => Any "error" (VString msg)
  | None => Any "error" (VString "")
  end.

Definition WithTracing (traceID spanID : string) (requestID : list string) : TraceInfo :=
  let reqID := match requestID with r :: _ => r | [] => "" end in
  {| TraceID := traceID; SpanID := spanID; RequestID := reqID |}.

Definition WithOption (opts : LogOption) : LogOption := opts.

(** ** Domain payload builders (lines 147-277) *)

Section Marshal.

(** [encoding/json.Marshal] is the standard library's: its result on a
    value is either the encoded text or an error. *)
Variable json_Marshal : value -> string + string.

Definition WithEvent (entity : string) (action : EventAction) (result : EventResult)
    (data : value) (refID : string) : EventLog :=
  let payload :=
    match data with
    | VNil => ""
    | VString str => str
    | _ => match json_Marshal data with
           | inl r => r
           | inr _ => ""
           end
    end in
  {| Entity := entity; Action := action; Result := result;
     ReferenceID := refID; Data := payload |}.

End Marshal.

Definition or_empty (m : go_map) : go_map :=
  match m with
  | None => Some ∅
  | Some _ => m
  end.

Definition WithHTTPRequest (method path remoteIP : string)
    (headers params query : go_map) (body : string) : HTTPRequestInfo :=
  let h := or_empty headers in
  let p := or_empty params in
  let q := or_empty query in
  {| Method := method; Path := path; RemoteIP := remoteIP;
     req_Headers := h; Params := p; Query := q; req_Body := body |}.

Definition WithError (name : string) (stacktrace : list string) : ErrorInfo :=
  let trace :=
    if Nat.eqb (length stacktrace) 1 then nth 0 stacktrace ""
    else if Nat.ltb 1 (length stacktrace) then nth 1 stacktrace ""
    else "" in
  {| Name := name; StackTrace := trace |}.

(** The zero value of [ErrorInfo] (what [var e ErrorInfo] holds). *)
Definition zero_ErrorInfo : ErrorInfo := {| Name := ""; StackTrace := "" |}.

Definition WithHTTPResponse (status : Z) (duration : float) (body : string)
    (error : list ErrorInfo) : HTTPResponseInfo :=
  let e := match error with e0 :: _ => e0 | [] => zero_ErrorInfo end in
  {| Status := status; resp_Duration := duration; resp_Body := body; resp_Error := e |}.

Definition WithKafkaMessage (topic : string) (partition offset : Z)
    (headers : go_map) (key payload : string) (timestamp : time_Time) : KafkaMessage :=
  let h := or_empty headers in
  {| Topic := topic; Partition := partition; Offset := offset;
     kafka_Headers := h; kafka_Key := key; Payload := payload;
     Timestamp := timestamp |}.

Definition WithKafkaResult (duration : float) (error : list ErrorInfo) : KafkaResult :=
  let e := match error with e0 :: _ => e0 | [] => zero_ErrorInfo end in
  {| kafka_Duration := duration; kafka_Error := e |}.

(** ** The zap backend, as the package drives it *)

(** [zapcore.Level], an [int8]: Debug = -1 up to Fatal = 5. *)
Inductive zapcore_Level :=
  | DebugLevel | InfoLevel | WarnLevel | ErrorLevel
  | DPanicLevel | PanicLevel | FatalLevel.

Definition zapcore_Level_value (l : zapcore_Level) : Z :=
  match l with
  | DebugLevel => -1 | InfoLevel => 0 | WarnLevel => 1 | ErrorLevel => 2
  | DPanicLevel => 3 | PanicLevel => 4 | FatalLevel => 5
  end.

(** [zap.Field] as built by [zap.String], [zap.Int] and [zap.Any]. *)
Inductive zap_Field :=
  | zap_String (key : string) (val : string)
  | zap_Int (key : string) (val : Z)
  | zap_Any (key : string) (val : value).

Definition field_key (f : zap_Field) : string :=
  match f with
  | zap_String k _ | zap_Int k _ | zap_Any k _ => k
  end.

Inductive LevelEncoder := LowercaseLevelEncoder | OtherLevelEncoder.
Inductive TimeEncoder := ISO8601TimeEncoder | OtherTimeEncoder.

(** The part of [zap.Config] the package sets after
    [zap.NewProductionConfig()]; [Level] is the atomic level's value. *)
Record zap_Config := {
  EncodeLevel : LevelEncoder;
  MessageKey : string;
  TimeKey : string;
  EncodeTime : TimeEncoder;
  Level : Z
}.

(** A built [*zap.Logger]: which build produced it, from which config, and
    the caller skip given to [Build]. *)
Record zap_Logger := {
  logger_id : nat;
  logger_config : zap_Config;
  callerSkip : nat
}.

(** What a logger method receives: the severity of the method called, the
    message and the fields, in order. *)
Record entry := {
  entry_level : zapcore_Level;
  entry_message : string;
  entry_fields : list zap_Field
}.

(** Calling a method on a nil [*zap.Logger] dereferences nil; on a built
    logger the entry is handed over. *)
Inductive outcome :=
  | NilDereference
  | Logged (lg : zap_Logger) (e : entry).

Definition zap_log (l : option zap_Logger) (lvl : zapcore_Level)
    (message : string) (fields : list zap_Field) : outcome :=
  match l with
  | None => NilDereference
  | Some lg =>
      Logged lg {| entry_level := lvl; entry_message := message; entry_fields := fields |}
  end.

(** ** Logger facade (lines 279-490) *)

Record SukiLogger := {
  config : Config;
  zapInstance : option zap_Logger
}.

(** The loop of [RequestKafka] (lines 291-300), repeated word for word in
    [RequestHTTP] (328-337) and [Event] (371-380): one iteration, on the
    pair of [data] and [alertLevel]. *)
Definition request_scan_step (st : gmap string value * AlertLevel) (arg : value)
    : gmap string value * AlertLevel :=
  let '(data, alertLevel) := st in
  match arg with
  | VTraceInfo tracing =>
      (<["tracing" := VTraceInfo {| TraceID := TraceID tracing;
                                    SpanID := SpanID tracing;
                                    RequestID := "" |}]> data, alertLevel)
  | VLogOption opts => (data, Alert opts)
  | _ => (data, alertLevel)
  end.

Definition request_scan (args : list value) : gmap string value * AlertLevel :=
  fold_left request_scan_step args (∅, LevelNone).

Definition RequestKafka (s : SukiLogger) (message : string)
    (kafkaMessage : KafkaMessage) (kafkaResult : KafkaResult)
    (args : list value) : outcome :=
  let appName := zap_String "app_name" (AppName (config s)) in
  let version := zap_String "version" (Version (config s)) in
  let logType := zap_String "log_type" "handler.kafka" in
  let '(data, alertLevel) := request_scan args in
  let data := <["kafka_message" := VKafkaMessage kafkaMessage]> data in
  let data := <["kafka_result" := VKafkaResult kafkaResult]> data in
  let dataField := zap_Any "data" (VMap data) in
  zap_log (zapInstance s) InfoLevel message
    [appName; version; logType; zap_Int "alert" alertLevel; dataField].

(** [len] of a Go string counts its bytes. *)
Definition len (s : string) : Z := Z.of_nat (String.length s).

Definition RequestHTTP (s : SukiLogger) (message : string)
    (request : HTTPRequestInfo) (response : HTTPResponseInfo)
    (args : list value) : outcome :=
  let appName := zap_String "app_name" (AppName (config s)) in
  let version := zap_String "version" (Version (config s)) in
  let logType := zap_String "log_type" "handler.http" in
  let '(data, alertLevel) := request_scan args in
  let '(request, response) :=
    if 0 <? MaxBodySize (config s) then
      let request :=
        if MaxBodySize (config s) <? len (req_Body request)
        then {| Method := Method request; Path := Path request;
                RemoteIP := RemoteIP request; req_Headers := req_Headers request;
                Params := Params request; Query := Query request;
                req_Body := "body is too large" |}
        else request in
      let response :=
        if MaxBodySize (config s) <? len (resp_Body response)
        then {| Status := Status response; resp_Duration := resp_Duration response;
                resp_Body := "body is too large"; resp_Error := resp_Error response |}
        else response in
      (request, response)
    else (request, response) in
  let data := <["http_request" := VHTTPRequestInfo request]> data in
  let data := <["http_response" := VHTTPResponseInfo response]> data in
  let dataField := zap_Any "data" (VMap data) in
  zap_log (zapInstance s) InfoLevel message
    [appName; version; logType; zap_Int "alert" alertLevel; dataField].

Definition Event (s : SukiLogger) (message : string) (event : EventLog)
    (args : list value) : outcome :=
  let appName := zap_String "app_name" (AppName (config s)) in
  let version := zap_String "version" (Version (config s)) in
  let logType := zap_String "log_type" "event" in
  let '(data, alertLevel) := request_scan args in
  let data := <["event" := VEventLog event]> data in
  let dataField := zap_Any "data" (VMap data) in
  zap_log (zapInstance s) InfoLevel message
    [appName; version; logType; zap_Int "alert" alertLevel; dataField].

(** The state of the loop of [appLogBuilder] (lines 414-426): [data],
    [appData] and [alertLevel]. *)
Record builder_state := {
  bs_data : gmap string value;
  bs_appData : gmap string value;
  bs_alertLevel : AlertLevel
}.

Definition appLog_scan_step (st : builder_state) (arg : value) : builder_state :=
  match arg with
  | VTraceInfo field =>
      {| bs_data := <["tracing" := VTraceInfo field]> (bs_data st);
         bs_appData := bs_appData st; bs_alertLevel := bs_alertLevel st |}
  | VLogField key v =>
      let stored := match v with VError msg => VString msg | _ => v end in
      {| bs_data := bs_data st;
         bs_appData := <[key := stored]> (bs_appData st);
         bs_alertLevel := bs_alertLevel st |}
  | VLogOption opts =>
      {| bs_data := bs_data st; bs_appData := bs_appData st;
         bs_alertLevel := Alert opts |}
  | _ => st
  end.

Definition appLog_scan (args : list value) : builder_state :=
  fold_left appLog_scan_step args
    {| bs_data := ∅; bs_appData := ∅; bs_alertLevel := LevelNone |}.

Definition appLogBuilder (s : SukiLogger) (args : list value) : list zap_Field :=
  let appName := zap_String "app_name" (AppName (config s)) in
  let version := zap_String "version" (Version (config s)) in
  let logType := zap_String "log_type" "application" in
  let appKey := if len (AppName (config s)) <=? 0 then "payload" else AppName (config s) in
  let st := appLog_scan args in
  let data :=
    if 0 <? Z.of_nat (size (bs_appData st))
    then <[appKey := VMap (bs_appData st)]> (bs_data st)
    else bs_data st in
  let dataField := zap_Any "data" (VMap data) in
  [appName; version; logType; zap_Int "alert" (bs_alertLevel st); dataField].

Definition Info (s : SukiLogger) (message : string) (args : list value) : outcome :=
  zap_log (zapInstance s) InfoLevel message (appLogBuilder s args).

Definition Debug (s : SukiLogger) (message : string) (args : list value) : outcome :=
  zap_log (zapInstance s) DebugLevel message (appLogBuilder s args).

Definition Error (s : SukiLogger) (message : string) (args : list value) : outcome :=
  zap_log (zapInstance s) ErrorLevel message (appLogBuilder s args).

Definition Warn (s : SukiLogger) (message : string) (args : list value) : outcome :=
  zap_log (zapInstance s) WarnLevel message (appLogBuilder s args).

Definition Panic (s : SukiLogger) (message : string) (args : list value) : outcome :=
  zap_log (zapInstance s) PanicLevel message (appLogBuilder s args).

Definition Fatal (s : SukiLogger) (message : string) (args : list value) : outcome :=
  zap_log (zapInstance s) FatalLevel message (appLogBuilder s args).

(** The six leveled methods with the severity each one emits at. *)
Definition leveled_methods
    : list (zapcore_Level * (SukiLogger -> string -> list value -> outcome)) :=
  [(InfoLevel, Info); (DebugLevel, Debug); (ErrorLevel, Error);
   (WarnLevel, Warn); (PanicLevel, Panic); (FatalLevel, Fatal)].

Definition NewProductionConfig : Config :=
  {| cfg_LogLevel := LevelInfo; AppName := "application";
     Version := "1.0.0"; MaxBodySize := 1048576 |}.

(** ** Process state: the package variable, the heap and the backend *)

(** Calls the package makes to zap that build or flush a logger. *)
Inductive zap_event :=
  | Built (lg : zap_Logger)
  | BuildFailed (cfg : zap_Config) (err : string)
  | Synced (lg : zap_Logger).

(** [sukiLogger] is the package variable [var sukiLogger *SukiLogger]
    ([None] is nil, [Some a] the address [a]); [heap] holds the allocated
    [SukiLogger] structs, an address being an index into it. *)
Record world := {
  sukiLogger : option nat;
  heap : list SukiLogger;
  build_calls : nat;
  zap_trace : list zap_event
}.

Definition is_Built (e : zap_event) : bool :=
  match e with Built _ => true | _ => false end.

(** How many sinks have been constructed so far. *)
Definition sinks_built (w : world) : nat :=
  length (filter (fun e => is_Built e = true) (zap_trace w)).

(** The zero value of [Config]. *)
Definition zero_Config : Config :=
  {| cfg_LogLevel := 0; AppName := ""; Version := ""; MaxBodySize := 0 |}.

(** The five assignments both [Configure] (lines 493-498) and [L]
    (lines 513-518) make on [zap.NewProductionConfig()]. *)
Definition package_zap_config (level : Z) : zap_Config :=
  {| EncodeLevel := LowercaseLevelEncoder;
     MessageKey := "message";
     TimeKey := "timestamp";
     EncodeTime := ISO8601TimeEncoder;
     Level := level |}.

(** A call either returns or panics on a nil receiver. *)
Inductive call_result (A : Type) :=
  | Returned (a : A)
  | Panicked.
Arguments Returned {A} a.
Arguments Panicked {A}.

Section Backend.

(** Whether zap's [Config.Build] fails is the environment's choice:
    [build_error cfg n] is the error of the [n]-th call to [Build], made
    with [cfg], or [None] when that call succeeds. *)
Variable build_error : zap_Config -> nat -> option string.

(** [config.Build(zap.AddCallerSkip(skip))]: a fresh logger, or
    [(nil, err)]. *)
Definition zap_Build (cfg : zap_Config) (skip : nat) (w : world)
    : (zap_Logger + string) * world :=
  let n := build_calls w in
  match build_error cfg n with
  | Some err =>
      (inr err,
       {| sukiLogger := sukiLogger w; heap := heap w; build_calls := S n;
          zap_trace := zap_trace w ++ [BuildFailed cfg err] |})
  | None =>
      let lg := {| logger_id := n; logger_config := cfg; callerSkip := skip |} in
      (inl lg,
       {| sukiLogger := sukiLogger w; heap := heap w; build_calls := S n;
          zap_trace := zap_trace w ++ [Built lg] |})
  end.

(** [logger.Sync()], its result dropped as the package does. *)
Definition zap_Sync (lg : zap_Logger) (w : world) : world :=
  {| sukiLogger := sukiLogger w; heap := heap w; build_calls := build_calls w;
     zap_trace := zap_trace w ++ [Synced lg] |}.

(** [*s = v] for the struct at address [a]. *)
Definition store (a : nat) (v : SukiLogger) (w : world) : world :=
  {| sukiLogger := sukiLogger w; heap := <[a := v]> (heap w);
     build_calls := build_calls w; zap_trace := zap_trace w |}.

(** [func (s *SukiLogger) Configure(c Config) error] (lines 492-509).
    The receiver is an address or nil; the result is the error ([None]
    is nil).  The deferred [logger.Sync()] runs when the function leaves,
    after the two assignments, and also when the assignment panics. *)
Definition Configure (s : option nat) (c : Config) (w : world)
    : call_result (option string) * world :=
  let cfg := package_zap_config (cfg_LogLevel c) in
  let '(r, w1) := zap_Build cfg 1 w in
  match r with
  | inr err => (Returned (Some err), w1)
  | inl logger =>
      match s with
      | Some a =>
          match heap w1 !! a with
          | Some _ =>
              let w2 := store a {| config := c; zapInstance := Some logger |} w1 in
              (Returned None, zap_Sync logger w2)
          | None => (Panicked, zap_Sync logger w1)
          end
      | None => (Panicked, zap_Sync logger w1)
      end
  end.

(** The allocation and assignment of line 522:
    [sukiLogger = &SukiLogger{zapInstance: logger}]. *)
Definition alloc_default (logger : option zap_Logger) (w : world) : world :=
  {| sukiLogger := Some (length (heap w));
     heap := heap w ++ [{| config := zero_Config; zapInstance := logger |}];
     build_calls := build_calls w;
     zap_trace := zap_trace w |}.

(** What [logger, _ := config.Build(..)] keeps: the logger, nil on error. *)
Definition drop_error (r : zap_Logger + string) : option zap_Logger :=
  match r with
  | inl lg => Some lg
  | inr _ => None
  end.

(** [func L() *SukiLogger] (lines 511-525), run without interruption. *)
Definition L (w : world) : option nat * world :=
  match sukiLogger w with
  | None =>
      let cfg := package_zap_config (zapcore_Level_value FatalLevel) in
      let '(r, w1) := zap_Build cfg 1 w in
      let w2 := alloc_default (drop_error r) w1 in
      (sukiLogger w2, w2)
  | Some _ => (sukiLogger w, w)
  end.

(** *** [L] one shared-memory access at a time

    A goroutine inside [L] is at one of these points: before the test of
    line 512, before the build of line 520, before the store of line 522
    (holding the logger it built), before the read of line 524, or done
    with its result.  Nothing in [L] takes a lock or uses [sync.Once], so
    between two such points another goroutine may run. *)
Inductive L_pc :=
  | L_check
  | L_build
  | L_store (logger : option zap_Logger)
  | L_return
  | L_done (r : option nat).

Definition L_step (pc : L_pc) (w : world) : L_pc * world :=
  match pc with
  | L_check =>
      match sukiLogger w with
      | None => (L_build, w)
      | Some _ => (L_return, w)
      end
  | L_build =>
      let cfg := package_zap_config (zapcore_Level_value FatalLevel) in
      let '(r, w1) := zap_Build cfg 1 w in
      (L_store (drop_error r), w1)
  | L_store logger => (L_return, alloc_default logger w)
  | L_return => (L_done (sukiLogger w), w)
  | L_done r => (L_done r, w)
  end.

(** [n] consecutive steps of one goroutine. *)
Fixpoint L_steps (n : nat) (pc : L_pc) (w : world) : L_pc * world :=
  match n with
  | O => (pc, w)
  | S n' => let '(pc', w') := L_step pc w in L_steps n' pc' w'
  end.

Inductive goroutine := G1 | G2.

(** Two goroutines, each inside one call of [L], over one [world]. *)
Record two_calls := {
  pc1 : L_pc;
  pc2 : L_pc;
  shared : world
}.

Definition sched_step (st : two_calls) (g : goroutine) : two_calls :=
  match g with
  | G1 => let '(pc, w) := L_step (pc1 st) (shared st) in
          {| pc1 := pc; pc2 := pc2 st; shared := w |}
  | G2 => let '(pc, w) := L_step (pc2 st) (shared st) in
          {| pc1 := pc1 st; pc2 := pc; shared := w |}
  end.

(** Both goroutines enter [L]; the schedule says who moves next. *)
Definition run_schedule (sched : list goroutine) (w : world) : two_calls :=
  fold_left sched_step sched {| pc1 := L_check; pc2 := L_check; shared := w |}.

End Backend.

(** The process at start: [sukiLogger] nil, nothing allocated or built. *)
Definition initial_world : world :=
  {| sukiLogger := None; heap := []; build_calls := 0; zap_trace := [] |}.

(** A backend whose [Build] never fails. *)
Definition build_always_ok : zap_Config -> nat -> option string := fun _ _ => None.

(** A backend whose [Build] always fails. *)
Definition build_always_fails : zap_Config -> nat -> option string :=
  fun _ _ => Some "cannot open sink".

(** ** Reading an emitted entry *)

(** The first field with the given key, as a reader of the record sees it. *)
Fixpoint find_field (k : string) (fs : list zap_Field) : option zap_Field :=
  match fs with
  | [] => None
  | f :: rest => if String.eqb (field_key f) k then Some f else find_field k rest
  end.

Definition alert_of (fs : list zap_Field) : option Z :=
  match find_field "alert" fs with
  | Some (zap_Int _ n) => Some n
  | _ => None
  end.

Definition log_type_of (fs : list zap_Field) : option string :=
  match find_field "log_type" fs with
  | Some (zap_String _ t) => Some t
  | _ => None
  end.

Definition data_of (fs : list zap_Field) : option (gmap string value) :=
  match find_field "data" fs with
  | Some (zap_Any _ (VMap m)) => Some m
  | _ => None
  end.

(** The entry of the ["data"] object under [k]. *)
Definition data_entry (k : string) (fs : list zap_Field) : option value :=
  match data_of fs with
  | Some m => m !! k
  | None => None
  end.

Definition tracing_of (fs : list zap_Field) : option value := data_entry "tracing" fs.

(** ** The specification's words, for comparison with the loops *)

(** The last [LogOption] of an argument list, in call-site order. *)
Fixpoint last_LogOption (args : list value) : option LogOption :=
  match args with
  | [] => None
  | a :: rest =>
      match last_LogOption rest with
      | Some o => Some o
      | None => match a with VLogOption o => Some o | _ => None end
      end
  end.

(** The alert the specification promises: that of the last [LogOption],
    None (0) without one. *)
Definition spec_alert (args : list value) : Z :=
  match last_LogOption args with
  | Some o => Alert o
  | None => 0
  end.

(** The last [TraceInfo] of an argument list, in call-site order. *)
Fixpoint last_TraceInfo (args : list value) : option TraceInfo :=
  match args with
  | [] => None
  | a :: rest =>
      match last_TraceInfo rest with
      | Some t => Some t
      | None => match a with VTraceInfo t => Some t | _ => None end
      end
  end.

(** A [TraceInfo] reduced to its trace and span identifiers. *)
Definition trace_and_span (t : TraceInfo) : TraceInfo :=
  {| TraceID := TraceID t; SpanID := SpanID t; RequestID := "" |}.

(** The body the specification promises for a configured maximum. *)
Definition spec_body (maxBodySize : Z) (body : string) : string :=
  if decide (0 < maxBodySize ∧ maxBodySize < len body)
  then "body is too large"
  else body.

(** ** Sample inputs *)

Definition sample_zap_logger : zap_Logger :=
  {| logger_id := 0; logger_config := package_zap_config 0; callerSkip := 1 |}.

Definition sample_logger : SukiLogger :=
  {| config := NewProductionConfig; zapInstance := Some sample_zap_logger |}.

Definition small_body_logger : SukiLogger :=
  {| config := {| cfg_LogLevel := LevelInfo; AppName := "shop";
                  Version := "2.1.0"; MaxBodySize := 4 |};
     zapInstance := Some sample_zap_logger |}.

Definition sample_trace : TraceInfo := WithTracing "trace-1" "span-1" ["req-1"].

Definition sample_request : HTTPRequestInfo :=
  WithHTTPRequest "GET" "/orders" "10.0.0.1" None None None "hello".

Definition sample_response : HTTPResponseInfo :=
  WithHTTPResponse 200 1.5%float "ok" [].

Definition sample_kafka_message : KafkaMessage :=
  WithKafkaMessage "orders" 0 42 None "k" "v" 0.

Definition sample_kafka_result : KafkaResult := WithKafkaResult 0.25%float [].

(** A stand-in for [json.Marshal] on a few values: integers and booleans
    encode, a channel does not. *)
Definition sample_marshal (v : value) : string + string :=
  match v with
  | VInt 1 => inl "1"
  | VBool true => inl "true"
  | VBool false => inl "false"
  | VNil => inl "null"
  | _ => inr "json: unsupported type"
  end.

Definition sample_event : EventLog :=
  WithEvent sample_marshal "order" ActionCreate ResultSuccess (VInt 1) "ref-1".

(** A process whose default logger exists and holds the sink of build 0. *)
Definition world_after_L : world := snd (L build_always_ok initial_world).

(** Two goroutines entering [L] together: both test [sukiLogger] before
    either stores. *)
Definition racing_schedule : list goroutine := [G1; G2; G1; G1; G1; G2; G2; G2].

(** ** Vocabulary for the properties of the scans *)

(** The key [appLogBuilder] files the fields under (lines 406-409). *)
Definition appKey (s : SukiLogger) : string :=
  if len (AppName (config s)) <=? 0 then "payload" else AppName (config s).

(** What [appLogBuilder] stores for a field value (lines 418-422): an
    error as its message, anything else as it is. *)
Definition stored_value (v : value) : value :=
  match v with
  | VError msg => VString msg
  | _ => v
  end.

(** The value of the last [LogField] with key [k], in call-site order. *)
Fixpoint last_field (k : string) (args : list value) : option value :=
  match args with
  | [] => None
  | a :: rest =>
      match last_field k rest with
      | Some v => Some v
      | None =>
          match a with
          | VLogField k' v => if String.eqb k' k then Some v else None
          | _ => None
          end
      end
  end.

(** The dynamic types the loop of [appLogBuilder] acts on. *)
Definition is_context_arg (a : value) : bool :=
  match a with
  | VTraceInfo _ | VLogField _ _ | VLogOption _ => true
  | _ => false
  end.

(** The dynamic types the loop of the three request methods acts on. *)
Definition is_trace_or_option (a : value) : bool :=
  match a with
  | VTraceInfo _ | VLogOption _ => true
  | _ => false
  end.


(** A payload map holding at most a ["tracing"] entry. *)
Definition tracing_only (o : option TraceInfo) : gmap string value :=
  match o with
  | Some t => {["tracing" := VTraceInfo t]}
  | None => ∅
  end.

(** The request and the response as [RequestHTTP] stores them
    (lines 339-347). *)
Definition stored_request (maxBodySize : Z) (request : HTTPRequestInfo) : HTTPRequestInfo :=
  {| Method := Method request; Path := Path request;
     RemoteIP := RemoteIP request; req_Headers := req_Headers request;
     Params := Params request; Query := Query request;
     req_Body := spec_body maxBodySize (req_Body request) |}.

Definition stored_response (maxBodySize : Z) (response : HTTPResponseInfo) : HTTPResponseInfo :=
  {| Status := Status response; resp_Duration := resp_Duration response;
     resp_Body := spec_body maxBodySize (resp_Body response);
     resp_Error := resp_Error response |}.

(** ** Vocabulary for the interleavings of [L] *)

(** The package variable, when set, addresses an allocated logger. *)
Definition world_ok (w : world) : Prop :=
  ∀ a, sukiLogger w = Some a → (a < length (heap w))%nat.

(** What must hold of the shared state at each point of a call of [L]:
    before the final read the variable is set; a finished call holds the
    address of an allocated logger. *)
Definition pc_ok (pc : L_pc) (w : world) : Prop :=
  match pc with
  | L_return => is_Some (sukiLogger w)
  | L_done r => ∃ a, r = Some a ∧ (a < length (heap w))%nat
  | _ => True
  end.

Definition calls_ok (st : two_calls) : Prop :=
  world_ok (shared st) ∧ pc_ok (pc1 st) (shared st) ∧ pc_ok (pc2 st) (shared st).

(** The points a call of [L] can be at when the package variable already
    holds the address [a]: it never reaches the build or the store, and it
    finishes with [a]. *)
Definition pc_settled (a : nat) (pc : L_pc) : Prop :=
  match pc with
  | L_check | L_return => True
  | L_done r => r = Some a
  | L_build | L_store _ => False
  end.

(** 1 once a call can have built a sink, 0 while it cannot. *)
Definition past_build (pc : L_pc) : nat :=
  match pc with
  | L_check | L_build => 0
  | _ => 1
  end.

(** 1 once a call can have allocated a logger, 0 while it cannot. *)
Definition past_store (pc : L_pc) : nat :=
  match pc with
  | L_check | L_build | L_store _ => 0
  | _ => 1
  end.

(** A backend whose first [Build] succeeds and whose later ones fail. *)
Definition build_first_only : zap_Config -> nat -> option string :=
  fun _ n => match n with O => None | _ => Some "cannot open sink" end.

(** * Properties *)

(** ** Builders *)

(** C3. [WithError(name, stacktrace...)]: with no trace value the stack
    trace is empty; with exactly one it is that value; with two or more it
    is the second, the first being dropped; the name is always [name]. *)
Theorem WithError_stacktrace_indexing (name : string) :
  WithError name [] = {| Name := name; StackTrace := "" |} ∧
  (∀ v, WithError name [v] = {| Name := name; StackTrace := v |}) ∧
  (∀ a b rest, WithError name (a :: b :: rest) = {| Name := name; StackTrace := b |}).
Proof.
  split; [reflexivity|].
  split; [reflexivity|].
  intros a b rest. reflexivity.
Qed.

Example WithError_spec_examples :
  StackTrace (WithError "x" ["x"]) = "x" ∧
  StackTrace (WithError "x" ["a"; "b"]) = "b" ∧
  StackTrace (WithError "x" []) = "".
Proof. repeat split. Qed.

(** C7. [WithEvent]: nil data gives the empty string; string data is kept
    as it is; any other data gives what [json.Marshal] encodes, and the
    empty string when [json.Marshal] fails.  [WithEvent] is a total
    function: it returns an [EventLog] in every case. *)
Theorem WithEvent_data (json_Marshal : value → string + string)
    (entity : string) (action : EventAction) (result : EventResult) (refID : string) :
  Data (WithEvent json_Marshal entity action result VNil refID) = "" ∧
  (∀ str, Data (WithEvent json_Marshal entity action result (VString str) refID) = str) ∧
  (∀ data, data ≠ VNil → (∀ str, data ≠ VString str) →
     (∀ r, json_Marshal data = inl r →
        Data (WithEvent json_Marshal entity action result data refID) = r) ∧
     (∀ err, json_Marshal data = inr err →
        Data (WithEvent json_Marshal entity action result data refID) = "")).
Proof.
  split; [reflexivity|].
  split; [reflexivity|].
  intros data Hnil Hstr.
  destruct data; try congruence;
    try (split; intros x Hx; simpl; rewrite Hx; reflexivity).
Qed.

Lemma WithEvent_data_witness :
  Data (WithEvent sample_marshal "order" ActionCreate ResultSuccess (VInt 1) "ref-1") = "1" ∧
  Data (WithEvent sample_marshal "order" ActionCreate ResultSuccess (VOther "chan int") "ref-1") = "".
Proof.
  split.
  - apply (WithEvent_data sample_marshal "order" ActionCreate ResultSuccess "ref-1");
      [discriminate | intros str; discriminate | reflexivity].
  - apply (proj2 (proj2 (proj2 (WithEvent_data sample_marshal "order" ActionCreate
                                  ResultSuccess "ref-1")) (VOther "chan int")
                    ltac:(discriminate) ltac:(intros str; discriminate)))
      with (err := "json: unsupported type").
    reflexivity.
Defined.

(** C9. [WithHTTPRequest] and [WithKafkaMessage]: a nil map argument comes
    out as an allocated map with no entry; an allocated map comes out as it
    was given. *)
Theorem nil_maps_become_empty (method path remoteIP body : string)
    (topic key payload : string) (partition offset : Z) (timestamp : time_Time) :
  (∀ p q, req_Headers (WithHTTPRequest method path remoteIP None p q body) = Some ∅) ∧
  (∀ h q, Params (WithHTTPRequest method path remoteIP h None q body) = Some ∅) ∧
  (∀ h p, Query (WithHTTPRequest method path remoteIP h p None body) = Some ∅) ∧
  kafka_Headers (WithKafkaMessage topic partition offset None key payload timestamp) = Some ∅ ∧
  (∀ m p q, req_Headers (WithHTTPRequest method path remoteIP (Some m) p q body) = Some m) ∧
  (∀ m h q, Params (WithHTTPRequest method path remoteIP h (Some m) q body) = Some m) ∧
  (∀ m h p, Query (WithHTTPRequest method path remoteIP h p (Some m) body) = Some m) ∧
  (∀ m, kafka_Headers (WithKafkaMessage topic partition offset (Some m) key payload timestamp)
        = Some m).
Proof. repeat split. Qed.

(** ** The argument scans *)

Section Scans.

Implicit Types (args : list value) (data : gmap string value).

(** The loop shared by [RequestKafka], [RequestHTTP] and [Event] leaves
    in [alertLevel] the alert of the last [LogOption] it met. *)
Lemma request_scan_alert args data (al : AlertLevel) :
  snd (fold_left request_scan_step args (data, al)) =
  match last_LogOption args with
  | Some o => Alert o
  | None => al
  end.
Proof.
  revert data al.
  induction args as [|a rest IH]; intros data al; [reflexivity|].
  cbn [fold_left last_LogOption].
  destruct a; cbn [request_scan_step]; rewrite IH;
    destruct (last_LogOption rest); reflexivity.
Qed.


(** The loop writes no key of [data] other than ["tracing"]. *)
Lemma request_scan_other_keys args data (al : AlertLevel) (k : string) :
  k ≠ "tracing" →
  fst (fold_left request_scan_step args (data, al)) !! k = data !! k.
Proof.
  intros Hk. revert data al.
  induction args as [|a rest IH]; intros data al; [reflexivity|].
  cbn [fold_left].
  destruct a; cbn [request_scan_step]; rewrite IH; try reflexivity.
  apply lookup_insert_ne. congruence.
Qed.

Lemma appLog_scan_alert args (st : builder_state) :
  bs_alertLevel (fold_left appLog_scan_step args st) =
  match last_LogOption args with
  | Some o => Alert o
  | None => bs_alertLevel st
  end.
Proof.
  revert st.
  induction args as [|a rest IH]; intros st; [reflexivity|].
  cbn [fold_left last_LogOption].
  destruct a; cbn [appLog_scan_step]; rewrite IH;
    destruct (last_LogOption rest); reflexivity.
Qed.


End Scans.


Lemma appLogBuilder_alert (s : SukiLogger) (args : list value) :
  alert_of (appLogBuilder s args) = Some (spec_alert args).
Proof.
  unfold appLogBuilder, alert_of, spec_alert. cbn [find_field field_key].
  cbn. unfold appLog_scan. rewrite appLog_scan_alert. reflexivity.
Qed.


(** Fields are filed under the application name, an error value as its
    message, a later key over an earlier one. *)
Example appLogBuilder_fields :
  data_entry "application"
    (appLogBuilder sample_logger
       [of_LogField (Any "cause" (VError "boom"));
        of_LogField (Error_field None);
        VOther "*slog.TraceInfo";
        of_LogField (Any "cause" (VInt 2))])
  = Some (VMap (<["error" := VString ""]> {["cause" := VInt 2]})).
Proof. vm_compute. reflexivity. Qed.

(** Every leveled method hands [appLogBuilder]'s fields to the sink, at its
    own severity. *)
Lemma leveled_method_emits (s : SukiLogger) (lg : zap_Logger) (message : string)
    (args : list value) (lvl : zapcore_Level)
    (m : SukiLogger → string → list value → outcome) :
  zapInstance s = Some lg →
  (lvl, m) ∈ leveled_methods →
  m s message args =
  Logged lg {| entry_level := lvl; entry_message := message;
               entry_fields := appLogBuilder s args |}.
Proof.
  intros Hz Hin. unfold leveled_methods in Hin.
  repeat (apply elem_of_cons in Hin as [Heq | Hin];
          [injection Heq as -> ->;
           cbv beta delta [Info Debug Error Warn Panic Fatal];
           rewrite Hz; reflexivity|]).
  apply elem_of_nil in Hin. contradiction.
Qed.

(** [last_LogOption] is what its name says: it finds nothing exactly when
    the list holds no [LogOption], and what it finds is followed by none. *)
Lemma last_LogOption_None (args : list value) :
  last_LogOption args = None ↔ ∀ o, VLogOption o ∉ args.
Proof.
  induction args as [|a rest IH]; cbn [last_LogOption].
  - split; [intros _ o Hin; inversion Hin | reflexivity].
  - destruct (last_LogOption rest) as [o'|] eqn:E.
    + split; [discriminate|]. intros Hno.
      assert (Hrest : ∀ o, VLogOption o ∉ rest)
        by (intros o Hin; apply (Hno o); right; exact Hin).
      apply IH in Hrest. discriminate.
    + destruct IH as [IH1 _]. specialize (IH1 eq_refl). split.
      * intros Ha x Hin. apply elem_of_cons in Hin as [Heq | Hin];
          [subst a; discriminate Ha | exact (IH1 _ Hin)].
      * intros Hno. destruct a; try reflexivity.
        exfalso. eapply Hno. left.
Qed.

Lemma last_LogOption_Some (args : list value) (o : LogOption) :
  last_LogOption args = Some o →
  ∃ before after : list value,
    args = (before ++ VLogOption o :: after)%list ∧ last_LogOption after = None.
Proof.
  induction args as [|a rest IH]; cbn [last_LogOption]; [discriminate|].
  destruct (last_LogOption rest) as [o'|] eqn:E.
  - intros [= ->]. destruct (IH eq_refl) as (b & af & -> & Haf).
    exists (a :: b), af. split; [reflexivity | exact Haf].
  - destruct a; try discriminate. intros [= ->].
    exists [], rest. split; [reflexivity | exact E].
Qed.

Lemma last_LogOption_app (before after : list value) :
  last_LogOption (before ++ after)%list =
  match last_LogOption after with
  | Some o => Some o
  | None => last_LogOption before
  end.
Proof.
  induction before as [|a rest IH]; cbn [app last_LogOption].
  - destruct (last_LogOption after); reflexivity.
  - rewrite IH. destruct (last_LogOption after); reflexivity.
Qed.

(** [spec_alert] in the specification's words: the alert of a [LogOption] that no
    other follows, and 0 for a list without any. *)
Lemma spec_alert_last (before after : list value) (o : LogOption) :
  (∀ o', VLogOption o' ∉ after) →
  spec_alert (before ++ VLogOption o :: after)%list = Alert o.
Proof.
  intros Hafter. apply last_LogOption_None in Hafter.
  unfold spec_alert. rewrite last_LogOption_app.
  cbn [last_LogOption]. rewrite Hafter. reflexivity.
Qed.

Lemma spec_alert_absent (args : list value) :
  (∀ o, VLogOption o ∉ args) → spec_alert args = LevelNone.
Proof.
  intros Hno. apply last_LogOption_None in Hno.
  unfold spec_alert. rewrite Hno. reflexivity.
Qed.

(** ** Emission *)

(** C5. Whatever the argument list, the top-level ["alert"] field of the
    record handed to the sink is the [Alert] of the last [LogOption] among
    the arguments, and None (0) when there is none; for the six leveled
    methods and for [RequestKafka], [RequestHTTP] and [Event]. *)
Theorem alert_is_last_LogOption (s : SukiLogger) (lg : zap_Logger)
    (message : string) (args : list value) :
  zapInstance s = Some lg →
  (∀ lvl m, (lvl, m) ∈ leveled_methods →
     ∃ e, m s message args = Logged lg e ∧
          alert_of (entry_fields e) = Some (spec_alert args)) ∧
  (∀ kafkaMessage kafkaResult,
     ∃ e, RequestKafka s message kafkaMessage kafkaResult args = Logged lg e ∧
          alert_of (entry_fields e) = Some (spec_alert args)) ∧
  (∀ request response,
     ∃ e, RequestHTTP s message request response args = Logged lg e ∧
          alert_of (entry_fields e) = Some (spec_alert args)) ∧
  (∀ event,
     ∃ e, Event s message event args = Logged lg e ∧
          alert_of (entry_fields e) = Some (spec_alert args)).
Proof.
  intros Hz.
  assert (Hscan : snd (request_scan args) = spec_alert args).
  { unfold request_scan, spec_alert. rewrite request_scan_alert. reflexivity. }
  split; [|split; [|split]].
  - intros lvl m Hin. eexists. split.
    + apply leveled_method_emits; eassumption.
    + apply appLogBuilder_alert.
  - intros km kr. unfold RequestKafka.
    destruct (request_scan args) as [data al]. rewrite Hz.
    eexists. split; [reflexivity|]. cbn in Hscan |- *. congruence.
  - intros rq rs. unfold RequestHTTP.
    destruct (request_scan args) as [data al]. rewrite Hz.
    destruct (0 <? MaxBodySize (config s));
      [destruct (MaxBodySize (config s) <? len (req_Body rq));
       destruct (MaxBodySize (config s) <? len (resp_Body rs))|];
      (eexists; split; [reflexivity|]; cbn in Hscan |- *; congruence).
  - intros ev. unfold Event.
    destruct (request_scan args) as [data al]. rewrite Hz.
    eexists. split; [reflexivity|]. cbn in Hscan |- *. congruence.
Qed.

Lemma alert_is_last_LogOption_witness :
  ∃ e, RequestKafka sample_logger "consumed" sample_kafka_message sample_kafka_result
         [VLogOption {| Alert := LevelAlert |}; VString "noise";
          VLogOption {| Alert := 7 |}; VTraceInfo sample_trace] = Logged sample_zap_logger e ∧
       alert_of (entry_fields e) = Some 7.
Proof.
  apply (alert_is_last_LogOption sample_logger sample_zap_logger "consumed"
           [VLogOption {| Alert := LevelAlert |}; VString "noise";
            VLogOption {| Alert := 7 |}; VTraceInfo sample_trace]).
  reflexivity.
Defined.

(** C8. [RequestHTTP], [RequestKafka] and [Event] call the sink's [Info]
    method, whatever the arguments, with ["log_type"] equal to
    ["handler.http"], ["handler.kafka"] and ["event"]. *)
Theorem request_methods_log_type_and_level (s : SukiLogger) (lg : zap_Logger)
    (message : string) (args : list value) :
  zapInstance s = Some lg →
  (∀ request response,
     ∃ e, RequestHTTP s message request response args = Logged lg e ∧
          entry_level e = InfoLevel ∧
          log_type_of (entry_fields e) = Some "handler.http") ∧
  (∀ kafkaMessage kafkaResult,
     ∃ e, RequestKafka s message kafkaMessage kafkaResult args = Logged lg e ∧
          entry_level e = InfoLevel ∧
          log_type_of (entry_fields e) = Some "handler.kafka") ∧
  (∀ event,
     ∃ e, Event s message event args = Logged lg e ∧
          entry_level e = InfoLevel ∧
          log_type_of (entry_fields e) = Some "event").
Proof.
  intros Hz. split; [|split].
  - intros rq rs. unfold RequestHTTP.
    destruct (request_scan args) as [data al]. rewrite Hz.
    destruct (0 <? MaxBodySize (config s));
      [destruct (MaxBodySize (config s) <? len (req_Body rq));
       destruct (MaxBodySize (config s) <? len (resp_Body rs))|];
      (eexists; split; [reflexivity|]; split; reflexivity).
  - intros km kr. unfold RequestKafka.
    destruct (request_scan args) as [data al]. rewrite Hz.
    eexists. split; [reflexivity|]. split; reflexivity.
  - intros ev. unfold Event.
    destruct (request_scan args) as [data al]. rewrite Hz.
    eexists. split; [reflexivity|]. split; reflexivity.
Qed.

Lemma request_methods_log_type_and_level_witness :
  ∃ e, Event sample_logger "order created" sample_event
         [VLogOption {| Alert := LevelAlert |}; VLogField "severity" (VString "fatal")]
       = Logged sample_zap_logger e ∧
       entry_level e = InfoLevel ∧
       log_type_of (entry_fields e) = Some "event".
Proof.
  apply (request_methods_log_type_and_level sample_logger sample_zap_logger "order created"
           [VLogOption {| Alert := LevelAlert |}; VLogField "severity" (VString "fatal")]).
  reflexivity.
Defined.

(** The two bodies [RequestHTTP] stores, read off its definition. *)
Lemma RequestHTTP_entries (s : SukiLogger) (lg : zap_Logger) (message : string)
    (request : HTTPRequestInfo) (response : HTTPResponseInfo) (args : list value) :
  zapInstance s = Some lg →
  ∃ e request' response',
    RequestHTTP s message request response args = Logged lg e ∧
    data_entry "http_request" (entry_fields e) = Some (VHTTPRequestInfo request') ∧
    data_entry "http_response" (entry_fields e) = Some (VHTTPResponseInfo response') ∧
    tracing_of (entry_fields e) = fst (request_scan args) !! "tracing" ∧
    request' =
      (if (0 <? MaxBodySize (config s)) && (MaxBodySize (config s) <? len (req_Body request))
       then {| Method := Method request; Path := Path request;
               RemoteIP := RemoteIP request; req_Headers := req_Headers request;
               Params := Params request; Query := Query request;
               req_Body := "body is too large" |}
       else request) ∧
    response' =
      (if (0 <? MaxBodySize (config s)) && (MaxBodySize (config s) <? len (resp_Body response))
       then {| Status := Status response; resp_Duration := resp_Duration response;
               resp_Body := "body is too large"; resp_Error := resp_Error response |}
       else response).
Proof.
  intros Hz. unfold RequestHTTP.
  destruct (request_scan args) as [data al]. rewrite Hz.
  destruct (0 <? MaxBodySize (config s));
    [destruct (MaxBodySize (config s) <? len (req_Body request));
     destruct (MaxBodySize (config s) <? len (resp_Body response))|];
    (eexists; eexists; eexists; split; [reflexivity|];
     unfold tracing_of, data_entry, data_of; cbn;
     repeat split;
     try (rewrite lookup_insert_ne by discriminate);
     try (rewrite lookup_insert_ne by discriminate);
     try (rewrite lookup_insert_eq); reflexivity).
Qed.

(** C6. [RequestHTTP] with a positive [MaxBodySize]: a request body longer
    than it is emitted as ["body is too large"], and so is a response body
    longer than it, each on its own; a body within the bound is emitted as
    given; with [MaxBodySize <= 0] both are emitted as given. *)
Theorem RequestHTTP_body_truncation (s : SukiLogger) (lg : zap_Logger)
    (message : string) (request : HTTPRequestInfo) (response : HTTPResponseInfo)
    (args : list value) :
  zapInstance s = Some lg →
  ∃ e request' response',
    RequestHTTP s message request response args = Logged lg e ∧
    data_entry "http_request" (entry_fields e) = Some (VHTTPRequestInfo request') ∧
    data_entry "http_response" (entry_fields e) = Some (VHTTPResponseInfo response') ∧
    req_Body request' = spec_body (MaxBodySize (config s)) (req_Body request) ∧
    resp_Body response' = spec_body (MaxBodySize (config s)) (resp_Body response) ∧
    (MaxBodySize (config s) ≤ 0 → request' = request ∧ response' = response).
Proof.
  intros Hz.
  destruct (RequestHTTP_entries s lg message request response args Hz)
    as (e & rq & rs & He & Hrq & Hrs & _ & -> & ->).
  exists e; eexists; eexists.
  split; [exact He|]. split; [exact Hrq|]. split; [exact Hrs|].
  unfold spec_body.
  destruct (Z.ltb_spec 0 (MaxBodySize (config s))) as [Hpos | Hnonpos];
    cbn [andb].
  - split; [|split; [|lia]].
    + destruct (Z.ltb_spec (MaxBodySize (config s)) (len (req_Body request)));
        case_decide; try reflexivity; lia.
    + destruct (Z.ltb_spec (MaxBodySize (config s)) (len (resp_Body response)));
        case_decide; try reflexivity; lia.
  - split; [|split; [|intros _; split; reflexivity]];
      case_decide; try reflexivity; lia.
Qed.

Lemma RequestHTTP_body_truncation_witness :
  ∃ e request' response',
    RequestHTTP small_body_logger "GET /orders" sample_request sample_response [] =
      Logged sample_zap_logger e ∧
    data_entry "http_request" (entry_fields e) = Some (VHTTPRequestInfo request') ∧
    data_entry "http_response" (entry_fields e) = Some (VHTTPResponseInfo response') ∧
    req_Body request' = spec_body 4 "hello" ∧
    resp_Body response' = spec_body 4 "ok" ∧
    (4 ≤ 0 → request' = sample_request ∧ response' = sample_response).
Proof.
  apply (RequestHTTP_body_truncation small_body_logger sample_zap_logger "GET /orders"
           sample_request sample_response []).
  reflexivity.
Defined.

Example body_truncation_sample :
  spec_body 4 "hello" = "body is too large" ∧ spec_body 4 "ok" = "ok" ∧
  spec_body 0 "hello" = "hello" ∧ spec_body (-1) "hello" = "hello" ∧
  spec_body 5 "hello" = "hello".
Proof. repeat split. Qed.

(** An argument list that holds a [TraceInfo] has a last one. *)
Lemma last_TraceInfo_is_Some (args : list value) (t : TraceInfo) :
  VTraceInfo t ∈ args → ∃ t', last_TraceInfo args = Some t'.
Proof.
  induction args as [|a rest IH]; intros Hin; [inversion Hin|].
  cbn [last_TraceInfo].
  destruct (last_TraceInfo rest) as [t'|] eqn:E; [eauto|].
  apply elem_of_cons in Hin as [<- | Hin]; [eauto|].
  destruct (IH Hin) as [t' Ht']. discriminate.
Qed.




(** The proviso matters: an application named ["tracing"] that logs a field
    has its fields stored over the [TraceInfo]. *)
Example appName_tracing_overwrites :
  tracing_of
    (appLogBuilder
       {| config := {| cfg_LogLevel := LevelInfo; AppName := "tracing";
                       Version := "1"; MaxBodySize := 0 |};
          zapInstance := Some sample_zap_logger |}
       [VTraceInfo sample_trace; VLogField "user" (VString "u1")])
  = Some (VMap {["user" := VString "u1"]}).
Proof. vm_compute. reflexivity. Qed.

(** ** Configuration and the default instance *)

Example world_after_L_holds_sink_0 :
  world_after_L =
  {| sukiLogger := Some 0%nat;
     heap := [{| config := zero_Config;
                 zapInstance := Some {| logger_id := 0; logger_config := package_zap_config 5;
                                        callerSkip := 1 |} |}];
     build_calls := 1;
     zap_trace := [Built {| logger_id := 0; logger_config := package_zap_config 5;
                            callerSkip := 1 |}] |}.
Proof. reflexivity. Qed.




(** A failing build leaves the logger as it was. *)
Example Configure_failure_keeps_sink :
  ∃ w', Configure build_always_fails (Some 0%nat) NewProductionConfig world_after_L
          = (Returned (Some "cannot open sink"), w') ∧
        heap w' = heap world_after_L ∧
        zap_trace w' = (zap_trace world_after_L ++
                        [BuildFailed (package_zap_config 0) "cannot open sink"])%list.
Proof. eexists. repeat split. Qed.

(** C10. A first call of [L], the package variable being nil, calls
    [Build] once, drops its error, allocates a [SukiLogger], stores its
    address in the package variable and returns that address; the logger's
    sink is nil when the build failed and the built sink otherwise.  [L]
    has no error result. *)
Theorem L_first_access_drops_build_error (build_error : zap_Config → nat → option string)
    (w : world) :
  sukiLogger w = None →
  ∃ a w' logger,
    L build_error w = (Some a, w') ∧
    sukiLogger w' = Some a ∧
    heap w' !! a = Some {| config := zero_Config; zapInstance := logger |} ∧
    build_calls w' = S (build_calls w) ∧
    (∀ err, build_error (package_zap_config 5) (build_calls w) = Some err → logger = None) ∧
    (build_error (package_zap_config 5) (build_calls w) = None →
     logger = Some {| logger_id := build_calls w;
                      logger_config := package_zap_config 5;
                      callerSkip := 1 |}).
Proof.
  intros Hnil. unfold L. rewrite Hnil.
  cbn [zapcore_Level_value]. unfold zap_Build.
  destruct (build_error (package_zap_config 5) (build_calls w)) as [err|] eqn:E;
    (eexists; eexists; eexists;
     split; [reflexivity|]; split; [reflexivity|];
     split; [cbn; apply list_lookup_middle; reflexivity|];
     split; [reflexivity|];
     split; [intros; try reflexivity; discriminate | intros; try reflexivity; discriminate]).
Qed.

Lemma L_first_access_drops_build_error_witness :
  ∃ a w' logger,
    L build_always_fails initial_world = (Some a, w') ∧
    sukiLogger w' = Some a ∧
    heap w' !! a = Some {| config := zero_Config; zapInstance := logger |} ∧
    build_calls w' = S (build_calls initial_world) ∧
    (∀ err, build_always_fails (package_zap_config 5) (build_calls initial_world) = Some err →
            logger = None) ∧
    (build_always_fails (package_zap_config 5) (build_calls initial_world) = None →
     logger = Some {| logger_id := build_calls initial_world;
                      logger_config := package_zap_config 5;
                      callerSkip := 1 |}).
Proof.
  apply (L_first_access_drops_build_error build_always_fails initial_world).
  reflexivity.
Defined.

(** With a failing backend the default logger has a nil sink, and calling
    a method on it dereferences nil. *)
Example L_with_failing_build :
  L build_always_fails initial_world =
  (Some 0%nat,
   {| sukiLogger := Some 0%nat;
      heap := [{| config := zero_Config; zapInstance := None |}];
      build_calls := 1;
      zap_trace := [BuildFailed (package_zap_config 5) "cannot open sink"] |}) ∧
  Info {| config := zero_Config; zapInstance := None |} "hello" [] = NilDereference.
Proof. split; reflexivity. Qed.

(** *** [L], step by step *)

Section Steps.

Variable build_error : zap_Config → nat → option string.

Lemma L_steps_done (n : nat) (r : option nat) (w : world) :
  L_steps build_error n (L_done r) w = (L_done r, w).
Proof. induction n as [|n IH]; [reflexivity | exact IH]. Qed.

(** One goroutine left alone for four steps or more has run [L]. *)
Lemma L_steps_run_L (n : nat) (w : world) :
  (4 ≤ n)%nat →
  L_steps build_error n L_check w = (L_done (fst (L build_error w)), snd (L build_error w)).
Proof.
  intros Hn.
  do 4 (destruct n as [|n]; [lia|]). clear Hn.
  unfold L. cbn [L_steps L_step].
  destruct (sukiLogger w) as [a|] eqn:E.
  - cbn [L_steps L_step]. rewrite E.
    destruct n; cbn [L_steps L_step fst snd]; rewrite ?L_steps_done; reflexivity.
  - cbn [L_steps L_step].
    destruct (zap_Build build_error _ 1 w) as [r w1].
    cbn [L_steps L_step fst snd]. apply L_steps_done.
Qed.

Lemma run_G1_alone (n : nat) (st : two_calls) :
  fold_left (sched_step build_error) (replicate n G1) st =
  {| pc1 := fst (L_steps build_error n (pc1 st) (shared st));
     pc2 := pc2 st;
     shared := snd (L_steps build_error n (pc1 st) (shared st)) |}.
Proof.
  revert st. induction n as [|n IH]; intros st.
  - destruct st; reflexivity.
  - cbn [replicate fold_left L_steps]. rewrite IH.
    unfold sched_step. destruct (L_step build_error (pc1 st) (shared st)); reflexivity.
Qed.

Lemma run_G2_alone (n : nat) (st : two_calls) :
  fold_left (sched_step build_error) (replicate n G2) st =
  {| pc1 := pc1 st;
     pc2 := fst (L_steps build_error n (pc2 st) (shared st));
     shared := snd (L_steps build_error n (pc2 st) (shared st)) |}.
Proof.
  revert st. induction n as [|n IH]; intros st.
  - destruct st; reflexivity.
  - cbn [replicate fold_left L_steps]. rewrite IH.
    unfold sched_step. destruct (L_step build_error (pc2 st) (shared st)); reflexivity.
Qed.

(** Once the package variable is set, [L] returns it and does nothing. *)
Lemma L_when_set (a : nat) (w : world) :
  sukiLogger w = Some a → L build_error w = (Some a, w).
Proof. intros H. unfold L. rewrite H. reflexivity. Qed.

End Steps.

(** What a first call of [L] returns and leaves behind. *)
Lemma L_first_access (build_error : zap_Config → nat → option string) (w : world) :
  sukiLogger w = None →
  ∃ w', L build_error w = (Some (length (heap w)), w') ∧
        sukiLogger w' = Some (length (heap w)) ∧
        length (heap w') = S (length (heap w)) ∧
        build_calls w' = S (build_calls w) ∧
        (build_error (package_zap_config 5) (build_calls w) = None →
         sinks_built w' = S (sinks_built w)).
Proof.
  intros Hnil. unfold L. rewrite Hnil.
  cbn [zapcore_Level_value]. unfold zap_Build.
  destruct (build_error (package_zap_config 5) (build_calls w)) as [err|] eqn:E;
    (eexists; split; [reflexivity|]; split; [reflexivity|];
     split; [cbn; rewrite length_app; cbn; lia|];
     split; [reflexivity|]; intros Hok; try discriminate Hok).
  unfold sinks_built. cbn [alloc_default zap_trace].
  rewrite filter_app, length_app. cbn.
  case_decide; [cbn; lia | congruence].
Qed.

(** C4, as the specification states it, fails.  [L] guards the package
    variable with nothing: when two goroutines both pass the nil test
    before either stores, each builds a sink and allocates a logger, and
    the two calls return different instances. *)
Lemma concurrent_first_access_builds_twice :
  ∃ a1 a2 w',
    run_schedule build_always_ok racing_schedule initial_world =
      {| pc1 := L_done (Some a1); pc2 := L_done (Some a2); shared := w' |} ∧
    a1 ≠ a2 ∧
    sinks_built w' = 2%nat ∧
    length (heap w') = 2%nat.
Proof.
  exists 0%nat, 1%nat. eexists.
  split; [reflexivity|]. split; [discriminate|]. split; reflexivity.
Qed.

(** C4, amended.  Two first accesses that do not overlap (the first call
    of [L] has returned before the second one starts) return the same
    instance; [Build] is called once, one logger is allocated, and one sink
    is constructed when that build succeeds.  Nothing is promised for
    calls that overlap. *)
Theorem sequential_first_accesses_share_instance
    (build_error : zap_Config → nat → option string) (w : world) (n m : nat) :
  sukiLogger w = None →
  (4 ≤ n)%nat →
  (4 ≤ m)%nat →
  ∃ a w',
    run_schedule build_error (replicate n G1 ++ replicate m G2) w =
      {| pc1 := L_done (Some a); pc2 := L_done (Some a); shared := w' |} ∧
    L build_error w = (Some a, w') ∧
    L build_error w' = (Some a, w') ∧
    build_calls w' = S (build_calls w) ∧
    length (heap w') = S (length (heap w)) ∧
    (build_error (package_zap_config 5) (build_calls w) = None →
     sinks_built w' = S (sinks_built w)).
Proof.
  intros Hnil Hn Hm.
  destruct (L_first_access build_error w Hnil) as (w' & HL & Hset & Hheap & Hcalls & Hsinks).
  exists (length (heap w)), w'.
  pose proof (L_when_set build_error _ _ Hset) as HL'.
  split.
  - unfold run_schedule. rewrite fold_left_app, run_G1_alone.
    cbn [pc1 pc2 shared]. rewrite (L_steps_run_L build_error n w Hn), HL.
    rewrite run_G2_alone. cbn [pc1 pc2 shared fst snd].
    rewrite (L_steps_run_L build_error m w' Hm), HL'. reflexivity.
  - repeat (split; [assumption|]). assumption.
Qed.

Lemma sequential_first_accesses_share_instance_witness :
  ∃ a w',
    run_schedule build_always_ok (replicate 4 G1 ++ replicate 4 G2) initial_world =
      {| pc1 := L_done (Some a); pc2 := L_done (Some a); shared := w' |} ∧
    L build_always_ok initial_world = (Some a, w') ∧
    L build_always_ok w' = (Some a, w') ∧
    build_calls w' = S (build_calls initial_world) ∧
    length (heap w') = S (length (heap initial_world)) ∧
    (build_always_ok (package_zap_config 5) (build_calls initial_world) = None →
     sinks_built w' = S (sinks_built initial_world)).
Proof.
  apply (sequential_first_accesses_share_instance build_always_ok initial_world 4 4);
    [reflexivity | lia | lia].
Defined.

(** Even when both calls end up returning the same instance, an overlap
    can build two sinks: the second store wins and both calls read it. *)
Example overlapping_calls_same_instance_two_sinks :
  ∃ a w',
    run_schedule build_always_ok [G1; G2; G1; G1; G2; G2; G1; G2] initial_world =
      {| pc1 := L_done (Some a); pc2 := L_done (Some a); shared := w' |} ∧
    sinks_built w' = 2%nat.
Proof. eexists; eexists. split; reflexivity. Qed.


(** ** More on [appLogBuilder] *)

Section BuilderScan.

Implicit Types (args : list value) (st : builder_state).

(** The loop leaves in [appData], under each key, what it stored for the
    last field with that key. *)
Lemma appLog_scan_fields args st (k : string) :
  bs_appData (fold_left appLog_scan_step args st) !! k =
  match last_field k args with
  | Some v => Some (stored_value v)
  | None => bs_appData st !! k
  end.
Proof.
  revert st.
  induction args as [|a rest IH]; intros st; [reflexivity|].
  cbn [fold_left last_field]. rewrite IH.
  destruct (last_field k rest) as [v|]; [reflexivity|].
  destruct a; try reflexivity.
  cbn [appLog_scan_step bs_appData].
  destruct (String.eqb_spec key k) as [-> | Hne].
  - rewrite lookup_insert_eq. reflexivity.
  - rewrite lookup_insert_ne by exact Hne. reflexivity.
Qed.

(** The loop touches [data] only under ["tracing"]. *)
Lemma appLog_scan_data args st :
  bs_data (fold_left appLog_scan_step args st) =
  match last_TraceInfo args with
  | Some t => <["tracing" := VTraceInfo t]> (bs_data st)
  | None => bs_data st
  end.
Proof.
  revert st.
  induction args as [|a rest IH]; intros st; [reflexivity|].
  cbn [fold_left last_TraceInfo]. rewrite IH.
  destruct a; cbn [appLog_scan_step bs_data];
    destruct (last_TraceInfo rest); try reflexivity.
  apply insert_insert_eq.
Qed.

Lemma appLog_scan_no_fields args st :
  (∀ k v, VLogField k v ∉ args) →
  bs_appData (fold_left appLog_scan_step args st) = bs_appData st.
Proof.
  revert st.
  induction args as [|a rest IH]; intros st Hno; [reflexivity|].
  cbn [fold_left].
  assert (Hrest : ∀ k v, VLogField k v ∉ rest)
    by (intros k v Hin; apply (Hno k v); right; exact Hin).
  rewrite (IH _ Hrest).
  destruct a; try reflexivity.
  exfalso. eapply Hno. left.
Qed.

(** Arguments of other dynamic types leave the loop's state alone. *)
Lemma appLog_scan_filter args st :
  fold_left appLog_scan_step (List.filter is_context_arg args) st =
  fold_left appLog_scan_step args st.
Proof.
  revert st.
  induction args as [|a rest IH]; intros st; [reflexivity|].
  destruct a; cbn [List.filter is_context_arg fold_left appLog_scan_step];
    apply IH.
Qed.


End BuilderScan.

(** [appLogBuilder], with its loop named. *)
Lemma appLogBuilder_unfold (s : SukiLogger) (args : list value) :
  appLogBuilder s args =
  [zap_String "app_name" (AppName (config s));
   zap_String "version" (Version (config s));
   zap_String "log_type" "application";
   zap_Int "alert" (bs_alertLevel (appLog_scan args));
   zap_Any "data"
     (VMap (if 0 <? Z.of_nat (size (bs_appData (appLog_scan args)))
            then <[appKey s := VMap (bs_appData (appLog_scan args))]>
                   (bs_data (appLog_scan args))
            else bs_data (appLog_scan args)))].
Proof. reflexivity. Qed.

(** X1. The fields given to a leveled method are emitted as one object
    under the application name (under ["payload"] when the name is empty):
    when the arguments hold a field with key [k], that object exists and
    holds, under every key, the value of the last field with that key, an
    error value as its message; keys no field uses are absent. *)
Theorem appLogBuilder_merges_fields (s : SukiLogger) (args : list value)
    (k : string) (v : value) :
  last_field k args = Some v →
  ∃ m, data_entry (appKey s) (appLogBuilder s args) = Some (VMap m) ∧
       m !! k = Some (stored_value v) ∧
       (∀ k', m !! k' = stored_value <$> last_field k' args).
Proof.
  intros Hk.
  assert (Hall : ∀ k', bs_appData (appLog_scan args) !! k'
                       = stored_value <$> last_field k' args).
  { intros k'. unfold appLog_scan. rewrite appLog_scan_fields.
    destruct (last_field k' args); reflexivity. }
  assert (Hsize : (0 <? Z.of_nat (size (bs_appData (appLog_scan args)))) = true).
  { apply Z.ltb_lt.
    destruct (size (bs_appData (appLog_scan args))) eqn:Esz; [|lia].
    apply map_size_empty_iff in Esz.
    specialize (Hall k). rewrite Esz, Hk, lookup_empty in Hall. discriminate. }
  exists (bs_appData (appLog_scan args)).
  split; [|split].
  - rewrite appLogBuilder_unfold.
    unfold data_entry, data_of. cbn [find_field field_key String.eqb Ascii.eqb Bool.eqb].
    cbn. cbn in Hsize. rewrite Hsize. apply lookup_insert_eq.
  - rewrite Hall, Hk. reflexivity.
  - exact Hall.
Qed.

Lemma appLogBuilder_merges_fields_witness :
  ∃ m, data_entry (appKey sample_logger)
         (appLogBuilder sample_logger
            [VLogField "user" (VString "u1"); VLogField "cause" (VError "boom");
             VLogField "user" (VString "u2")]) = Some (VMap m) ∧
       m !! "user" = Some (stored_value (VString "u2")) ∧
       (∀ k', m !! k' = stored_value <$>
                last_field k' [VLogField "user" (VString "u1");
                               VLogField "cause" (VError "boom");
                               VLogField "user" (VString "u2")]).
Proof.
  apply (appLogBuilder_merges_fields sample_logger
           [VLogField "user" (VString "u1"); VLogField "cause" (VError "boom");
            VLogField "user" (VString "u2")] "user" (VString "u2")).
  reflexivity.
Defined.

(** X2. A leveled method called with no field still emits the ["data"]
    object: it holds the last [TraceInfo] under ["tracing"] when one was
    given and is empty otherwise; no object is filed under the application
    name. *)
Theorem appLogBuilder_without_fields (s : SukiLogger) (args : list value) :
  (∀ k v, VLogField k v ∉ args) →
  data_of (appLogBuilder s args) = Some (tracing_only (last_TraceInfo args)).
Proof.
  intros Hno. rewrite appLogBuilder_unfold.
  unfold data_of. cbn [find_field field_key]. cbn.
  unfold appLog_scan.
  rewrite (appLog_scan_no_fields _ _ Hno), appLog_scan_data.
  cbn. destruct (last_TraceInfo args); reflexivity.
Qed.

Lemma appLogBuilder_without_fields_witness :
  data_of (appLogBuilder sample_logger [VLogOption {| Alert := LevelAlert |}; VInt 3])
  = Some (tracing_only (last_TraceInfo [VLogOption {| Alert := LevelAlert |}; VInt 3])).
Proof.
  apply (appLogBuilder_without_fields sample_logger
           [VLogOption {| Alert := LevelAlert |}; VInt 3]).
  intros k v Hin.
  repeat (apply elem_of_cons in Hin as [Heq | Hin]; [discriminate Heq|]).
  inversion Hin.
Defined.

(** X3. The leveled methods ignore every argument that is not a
    [TraceInfo], a [LogField] or a [LogOption]: dropping such arguments
    from the call changes nothing in what is handed to the sink. *)
Theorem leveled_methods_ignore_other_args (s : SukiLogger) (message : string)
    (args : list value) :
  appLogBuilder s (List.filter is_context_arg args) = appLogBuilder s args ∧
  Info s message (List.filter is_context_arg args) = Info s message args ∧
  Debug s message (List.filter is_context_arg args) = Debug s message args ∧
  Error s message (List.filter is_context_arg args) = Error s message args ∧
  Warn s message (List.filter is_context_arg args) = Warn s message args ∧
  Panic s message (List.filter is_context_arg args) = Panic s message args ∧
  Fatal s message (List.filter is_context_arg args) = Fatal s message args.
Proof.
  assert (H : appLogBuilder s (List.filter is_context_arg args) = appLogBuilder s args).
  { rewrite !appLogBuilder_unfold. unfold appLog_scan.
    rewrite appLog_scan_filter. reflexivity. }
  unfold Info, Debug, Error, Warn, Panic, Fatal. rewrite H.
  repeat split.
Qed.


Example Error_field_same_as_Any :
  ∀ s msg,
    appLogBuilder s [of_LogField (Any "error" (VError msg))] =
    appLogBuilder s [of_LogField (Error_field (Some msg))].
Proof. intros s msg. reflexivity. Qed.

(** X5. Whatever the arguments, a leveled method on a logger with a sink
    hands that sink the message as given and exactly five fields, in this
    order: ["app_name"] and ["version"] from the config, ["log_type"] equal
    to ["application"], an integer ["alert"] and an object ["data"]. *)
Theorem leveled_record_shape (s : SukiLogger) (lg : zap_Logger) (message : string)
    (args : list value) (lvl : zapcore_Level)
    (m : SukiLogger → string → list value → outcome) :
  zapInstance s = Some lg →
  (lvl, m) ∈ leveled_methods →
  ∃ alert data,
    m s message args =
    Logged lg {| entry_level := lvl;
                 entry_message := message;
                 entry_fields :=
                   [zap_String "app_name" (AppName (config s));
                    zap_String "version" (Version (config s));
                    zap_String "log_type" "application";
                    zap_Int "alert" alert;
                    zap_Any "data" (VMap data)] |}.
Proof.
  intros Hz Hin.
  rewrite (leveled_method_emits s lg message args lvl m Hz Hin).
  rewrite appLogBuilder_unfold. eexists; eexists. reflexivity.
Qed.

Lemma leveled_record_shape_witness :
  ∃ alert data,
    Warn sample_logger "slow" [VLogField "ms" (VInt 900); VOther "chan int"] =
    Logged sample_zap_logger
      {| entry_level := WarnLevel;
         entry_message := "slow";
         entry_fields :=
           [zap_String "app_name" (AppName (config sample_logger));
            zap_String "version" (Version (config sample_logger));
            zap_String "log_type" "application";
            zap_Int "alert" alert;
            zap_Any "data" (VMap data)] |}.
Proof.
  apply (leveled_record_shape sample_logger sample_zap_logger "slow"
           [VLogField "ms" (VInt 900); VOther "chan int"] WarnLevel Warn).
  - reflexivity.
  - unfold leveled_methods. do 3 right. left.
Defined.

(** ** More on [RequestKafka], [RequestHTTP] and [Event] *)

Lemma request_scan_data (args : list value) (data : gmap string value) (al : AlertLevel) :
  fst (fold_left request_scan_step args (data, al)) =
  match last_TraceInfo args with
  | Some t => <["tracing" := VTraceInfo (trace_and_span t)]> data
  | None => data
  end.
Proof.
  revert data al.
  induction args as [|a rest IH]; intros data al; [reflexivity|].
  cbn [fold_left last_TraceInfo].
  destruct a; cbn [request_scan_step]; rewrite IH;
    destruct (last_TraceInfo rest); try reflexivity.
  apply insert_insert_eq.
Qed.

(** What the shared loop computes, in closed form. *)
Lemma request_scan_closed (args : list value) :
  request_scan args =
  (tracing_only (trace_and_span <$> last_TraceInfo args), spec_alert args).
Proof.
  unfold request_scan.
  rewrite (surjective_pairing (fold_left request_scan_step args (∅, LevelNone))).
  rewrite request_scan_data, request_scan_alert.
  unfold spec_alert. destruct (last_TraceInfo args); reflexivity.
Qed.

Lemma request_scan_filter (args : list value) (st : gmap string value * AlertLevel) :
  fold_left request_scan_step (List.filter is_trace_or_option args) st =
  fold_left request_scan_step args st.
Proof.
  revert st.
  induction args as [|a rest IH]; intros [data al]; [reflexivity|].
  destruct a; cbn [List.filter is_trace_or_option fold_left request_scan_step];
    apply IH.
Qed.

(** The bodies [RequestHTTP] stores are those of [spec_body]. *)
Lemma stored_request_eq (maxBodySize : Z) (request : HTTPRequestInfo) :
  (if 0 <? maxBodySize
   then if maxBodySize <? len (req_Body request)
        then {| Method := Method request; Path := Path request;
                RemoteIP := RemoteIP request; req_Headers := req_Headers request;
                Params := Params request; Query := Query request;
                req_Body := "body is too large" |}
        else request
   else request) = stored_request maxBodySize request.
Proof.
  unfold stored_request, spec_body.
  destruct (Z.ltb_spec 0 maxBodySize);
    [destruct (Z.ltb_spec maxBodySize (len (req_Body request)))|];
    case_decide; try lia; destruct request; reflexivity.
Qed.

Lemma stored_response_eq (maxBodySize : Z) (response : HTTPResponseInfo) :
  (if 0 <? maxBodySize
   then if maxBodySize <? len (resp_Body response)
        then {| Status := Status response; resp_Duration := resp_Duration response;
                resp_Body := "body is too large"; resp_Error := resp_Error response |}
        else response
   else response) = stored_response maxBodySize response.
Proof.
  unfold stored_response, spec_body.
  destruct (Z.ltb_spec 0 maxBodySize);
    [destruct (Z.ltb_spec maxBodySize (len (resp_Body response)))|];
    case_decide; try lia; destruct response; reflexivity.
Qed.

(** X6. [RequestKafka], [RequestHTTP] and [Event] act on [TraceInfo] and
    [LogOption] arguments only: every other argument, a [LogField]
    included, can be dropped from the call without changing what is handed
    to the sink. *)
Theorem request_methods_ignore_fields (s : SukiLogger) (message : string)
    (args : list value) :
  (∀ kafkaMessage kafkaResult,
     RequestKafka s message kafkaMessage kafkaResult (List.filter is_trace_or_option args)
     = RequestKafka s message kafkaMessage kafkaResult args) ∧
  (∀ request response,
     RequestHTTP s message request response (List.filter is_trace_or_option args)
     = RequestHTTP s message request response args) ∧
  (∀ event,
     Event s message event (List.filter is_trace_or_option args)
     = Event s message event args).
Proof.
  assert (H : request_scan (List.filter is_trace_or_option args) = request_scan args)
    by apply request_scan_filter.
  split; [|split]; intros;
    unfold RequestKafka, RequestHTTP, Event; rewrite H; reflexivity.
Qed.

Example RequestKafka_drops_LogField :
  RequestKafka sample_logger "consumed" sample_kafka_message sample_kafka_result
    [VLogField "user" (VString "u1"); VTraceInfo sample_trace]
  = RequestKafka sample_logger "consumed" sample_kafka_message sample_kafka_result
      [VTraceInfo sample_trace].
Proof. reflexivity. Qed.

(** X7. [RequestKafka] and [Event] carry their payload as given under
    fixed keys.  The ["data"] object of [RequestKafka] holds the message
    under ["kafka_message"], the result under ["kafka_result"], the last
    [TraceInfo] of the arguments (trace and span identifiers) under
    ["tracing"] when there is one, and nothing else; that of [Event] holds
    the event under ["event"] and the same ["tracing"]. *)
Theorem RequestKafka_Event_data (s : SukiLogger) (lg : zap_Logger) (message : string)
    (args : list value) :
  zapInstance s = Some lg →
  (∀ kafkaMessage kafkaResult,
     ∃ e, RequestKafka s message kafkaMessage kafkaResult args = Logged lg e ∧
          entry_message e = message ∧
          data_of (entry_fields e) =
          Some (<["kafka_result" := VKafkaResult kafkaResult]>
                  (<["kafka_message" := VKafkaMessage kafkaMessage]>
                     (tracing_only (trace_and_span <$> last_TraceInfo args))))) ∧
  (∀ event,
     ∃ e, Event s message event args = Logged lg e ∧
          entry_message e = message ∧
          data_of (entry_fields e) =
          Some (<["event" := VEventLog event]>
                  (tracing_only (trace_and_span <$> last_TraceInfo args)))).
Proof.
  intros Hz. split; intros;
    unfold RequestKafka, Event; rewrite request_scan_closed, Hz;
    eexists; split; [reflexivity | split; reflexivity | reflexivity | split; reflexivity].
Qed.

Lemma RequestKafka_Event_data_witness :
  (∀ kafkaMessage kafkaResult,
     ∃ e, RequestKafka sample_logger "consumed" kafkaMessage kafkaResult
            [VLogField "tracing" (VInt 1); VTraceInfo sample_trace] = Logged sample_zap_logger e ∧
          entry_message e = "consumed" ∧
          data_of (entry_fields e) =
          Some (<["kafka_result" := VKafkaResult kafkaResult]>
                  (<["kafka_message" := VKafkaMessage kafkaMessage]>
                     (tracing_only (trace_and_span <$>
                        last_TraceInfo [VLogField "tracing" (VInt 1);
                                        VTraceInfo sample_trace]))))) ∧
  (∀ event,
     ∃ e, Event sample_logger "consumed" event
            [VLogField "tracing" (VInt 1); VTraceInfo sample_trace] = Logged sample_zap_logger e ∧
          entry_message e = "consumed" ∧
          data_of (entry_fields e) =
          Some (<["event" := VEventLog event]>
                  (tracing_only (trace_and_span <$>
                     last_TraceInfo [VLogField "tracing" (VInt 1);
                                     VTraceInfo sample_trace])))).
Proof.
  apply (RequestKafka_Event_data sample_logger sample_zap_logger "consumed"
           [VLogField "tracing" (VInt 1); VTraceInfo sample_trace]).
  reflexivity.
Defined.

(** X8. [RequestHTTP] changes nothing of the request and the response but
    their bodies: the ["data"] object holds, under ["http_request"] and
    ["http_response"], the request and response given with each body
    replaced as the size bound says, the ["tracing"] entry of the
    arguments, and nothing else. *)
Theorem RequestHTTP_data (s : SukiLogger) (lg : zap_Logger) (message : string)
    (request : HTTPRequestInfo) (response : HTTPResponseInfo) (args : list value) :
  zapInstance s = Some lg →
  ∃ e, RequestHTTP s message request response args = Logged lg e ∧
       entry_message e = message ∧
       data_of (entry_fields e) =
       Some (<["http_response" :=
                 VHTTPResponseInfo (stored_response (MaxBodySize (config s)) response)]>
               (<["http_request" :=
                    VHTTPRequestInfo (stored_request (MaxBodySize (config s)) request)]>
                  (tracing_only (trace_and_span <$> last_TraceInfo args)))).
Proof.
  intros Hz. unfold RequestHTTP. rewrite request_scan_closed, Hz.
  rewrite <- (stored_request_eq (MaxBodySize (config s)) request).
  rewrite <- (stored_response_eq (MaxBodySize (config s)) response).
  destruct (0 <? MaxBodySize (config s));
    (eexists; split; [reflexivity|]; split; reflexivity).
Qed.

Lemma RequestHTTP_data_witness :
  ∃ e, RequestHTTP small_body_logger "GET /orders" sample_request sample_response
         [VTraceInfo sample_trace] = Logged sample_zap_logger e ∧
       entry_message e = "GET /orders" ∧
       data_of (entry_fields e) =
       Some (<["http_response" :=
                 VHTTPResponseInfo
                   (stored_response (MaxBodySize (config small_body_logger)) sample_response)]>
               (<["http_request" :=
                    VHTTPRequestInfo
                      (stored_request (MaxBodySize (config small_body_logger)) sample_request)]>
                  (tracing_only (trace_and_span <$> last_TraceInfo [VTraceInfo sample_trace])))).
Proof.
  apply (RequestHTTP_data small_body_logger sample_zap_logger "GET /orders"
           sample_request sample_response [VTraceInfo sample_trace]).
  reflexivity.
Defined.

(** [RequestHTTP] with its loop and its size test in closed form. *)
Lemma RequestHTTP_closed (s : SukiLogger) (message : string)
    (request : HTTPRequestInfo) (response : HTTPResponseInfo) (args : list value) :
  RequestHTTP s message request response args =
  zap_log (zapInstance s) InfoLevel message
    [zap_String "app_name" (AppName (config s));
     zap_String "version" (Version (config s));
     zap_String "log_type" "handler.http";
     zap_Int "alert" (spec_alert args);
     zap_Any "data"
       (VMap (<["http_response" :=
                  VHTTPResponseInfo (stored_response (MaxBodySize (config s)) response)]>
                (<["http_request" :=
                     VHTTPRequestInfo (stored_request (MaxBodySize (config s)) request)]>
                   (tracing_only (trace_and_span <$> last_TraceInfo args)))))].
Proof.
  unfold RequestHTTP. rewrite request_scan_closed.
  rewrite <- (stored_request_eq (MaxBodySize (config s)) request).
  rewrite <- (stored_response_eq (MaxBodySize (config s)) response).
  destruct (0 <? MaxBodySize (config s)); reflexivity.
Qed.

(** The replacement text is 17 bytes long, whatever the bound. *)
Lemma spec_body_length (maxBodySize : Z) (body : string) :
  0 < maxBodySize →
  len (spec_body maxBodySize body) ≤ Z.max maxBodySize 17.
Proof.
  intros Hpos. unfold spec_body. case_decide.
  - change (len "body is too large") with 17. lia.
  - lia.
Qed.

(** X9. With a positive [MaxBodySize] the bodies [RequestHTTP] emits are
    at most [max(MaxBodySize, 17)] bytes long, 17 being the length of the
    replacement text: a bound below 17 is exceeded by the replacement
    itself. *)
Theorem RequestHTTP_body_length (s : SukiLogger) (lg : zap_Logger) (message : string)
    (request : HTTPRequestInfo) (response : HTTPResponseInfo) (args : list value) :
  zapInstance s = Some lg →
  0 < MaxBodySize (config s) →
  ∃ e request' response',
    RequestHTTP s message request response args = Logged lg e ∧
    data_entry "http_request" (entry_fields e) = Some (VHTTPRequestInfo request') ∧
    data_entry "http_response" (entry_fields e) = Some (VHTTPResponseInfo response') ∧
    len (req_Body request') ≤ Z.max (MaxBodySize (config s)) 17 ∧
    len (resp_Body response') ≤ Z.max (MaxBodySize (config s)) 17.
Proof.
  intros Hz Hpos. rewrite RequestHTTP_closed, Hz.
  eexists; eexists; eexists. split; [reflexivity|].
  unfold data_entry, data_of. cbn.
  split; [rewrite lookup_insert_ne by discriminate; apply lookup_insert_eq|].
  split; [apply lookup_insert_eq|].
  split; apply spec_body_length; exact Hpos.
Qed.

Lemma RequestHTTP_body_length_witness :
  ∃ e request' response',
    RequestHTTP small_body_logger "GET /orders" sample_request sample_response [] =
      Logged sample_zap_logger e ∧
    data_entry "http_request" (entry_fields e) = Some (VHTTPRequestInfo request') ∧
    data_entry "http_response" (entry_fields e) = Some (VHTTPResponseInfo response') ∧
    len (req_Body request') ≤ Z.max (MaxBodySize (config small_body_logger)) 17 ∧
    len (resp_Body response') ≤ Z.max (MaxBodySize (config small_body_logger)) 17.
Proof.
  apply (RequestHTTP_body_length small_body_logger sample_zap_logger "GET /orders"
           sample_request sample_response []).
  - reflexivity.
  - reflexivity.
Defined.

(** A bound of 4 bytes: the 5-byte body is emitted as 17 bytes. *)
Example replacement_longer_than_bound :
  len (req_Body sample_request) = 5 ∧
  len (req_Body (stored_request 4 sample_request)) = 17.
Proof. split; reflexivity. Qed.

(** ** More on [Configure] and [L] *)

Lemma zap_Build_keeps_memory (build_error : zap_Config → nat → option string)
    (cfg : zap_Config) (skip : nat) (w : world) :
  sukiLogger (snd (zap_Build build_error cfg skip w)) = sukiLogger w ∧
  heap (snd (zap_Build build_error cfg skip w)) = heap w ∧
  build_calls (snd (zap_Build build_error cfg skip w)) = S (build_calls w).
Proof.
  unfold zap_Build. destruct (build_error cfg (build_calls w)); repeat split.
Qed.

Lemma zap_Build_sinks (build_error : zap_Config → nat → option string)
    (cfg : zap_Config) (skip : nat) (w : world) :
  (sinks_built (snd (zap_Build build_error cfg skip w)) ≤ S (sinks_built w))%nat.
Proof.
  unfold zap_Build, sinks_built.
  destruct (build_error cfg (build_calls w)); cbn [snd zap_trace];
    rewrite filter_app, length_app; cbn; case_decide; cbn; lia.
Qed.

(** X10. [Configure] on a nil receiver builds the sink before it touches
    the receiver: when the build fails it returns the error and does not
    panic; when the build succeeds the assignment panics, the sink just
    built is synced by the deferred call and then lost, and no logger is
    changed. *)
Theorem Configure_nil_receiver (build_error : zap_Config → nat → option string)
    (c : Config) (w : world) :
  (∀ err, build_error (package_zap_config (cfg_LogLevel c)) (build_calls w) = Some err →
     ∃ w', Configure build_error None c w = (Returned (Some err), w') ∧
           heap w' = heap w ∧ sukiLogger w' = sukiLogger w) ∧
  (build_error (package_zap_config (cfg_LogLevel c)) (build_calls w) = None →
     ∃ new w', Configure build_error None c w = (Panicked, w') ∧
               heap w' = heap w ∧ sukiLogger w' = sukiLogger w ∧
               zap_trace w' = (zap_trace w ++ [Built new; Synced new])%list).
Proof.
  split.
  - intros err Herr. unfold Configure, zap_Build. rewrite Herr.
    eexists. repeat split.
  - intros Hok. unfold Configure, zap_Build. rewrite Hok.
    eexists; eexists. split; [reflexivity|].
    cbn. repeat split. rewrite <- app_assoc. reflexivity.
Qed.

Lemma Configure_nil_receiver_witness :
  (∀ err, build_always_ok (package_zap_config (cfg_LogLevel NewProductionConfig))
            (build_calls initial_world) = Some err →
     ∃ w', Configure build_always_ok None NewProductionConfig initial_world
             = (Returned (Some err), w') ∧
           heap w' = heap initial_world ∧ sukiLogger w' = sukiLogger initial_world) ∧
  (build_always_ok (package_zap_config (cfg_LogLevel NewProductionConfig))
     (build_calls initial_world) = None →
     ∃ new w', Configure build_always_ok None NewProductionConfig initial_world
                 = (Panicked, w') ∧
               heap w' = heap initial_world ∧ sukiLogger w' = sukiLogger initial_world ∧
               zap_trace w' = (zap_trace initial_world ++ [Built new; Synced new])%list).
Proof.
  exact (Configure_nil_receiver build_always_ok NewProductionConfig initial_world).
Defined.

(** The logger a first call of [L] allocates. *)
Lemma L_first_access_logger (build_error : zap_Config → nat → option string) (w : world) :
  sukiLogger w = None →
  ∃ w', L build_error w = (Some (length (heap w)), w') ∧
        sukiLogger w' = Some (length (heap w)) ∧
        build_calls w' = S (build_calls w) ∧
        heap w' !! length (heap w) =
        Some {| config := zero_Config;
                zapInstance :=
                  match build_error (package_zap_config 5) (build_calls w) with
                  | Some _ => None
                  | None => Some {| logger_id := build_calls w;
                                    logger_config := package_zap_config 5;
                                    callerSkip := 1 |}
                  end |}.
Proof.
  intros Hnil. unfold L. rewrite Hnil.
  cbn [zapcore_Level_value]. unfold zap_Build.
  destruct (build_error (package_zap_config 5) (build_calls w));
    (eexists; split; [reflexivity|]; split; [reflexivity|];
     split; [reflexivity|]; cbn; apply list_lookup_middle; reflexivity).
Qed.

(** X11. Configuring the default logger keeps the instance: after a first
    [L()], [Configure] on the address it returned does not panic, and
    every later [L()] returns that same address without building anything.
    When the build of [Configure] succeeds the instance holds the new
    config and a sink built at the config's level; when it fails the
    instance is as the first [L()] left it. *)
Theorem Configure_on_default_logger (build_error : zap_Config → nat → option string)
    (c : Config) (w : world) :
  sukiLogger w = None →
  ∃ a w1 r w2,
    L build_error w = (Some a, w1) ∧
    Configure build_error (Some a) c w1 = (Returned r, w2) ∧
    L build_error w2 = (Some a, w2) ∧
    (build_error (package_zap_config (cfg_LogLevel c)) (S (build_calls w)) = None →
     r = None ∧
     heap w2 !! a =
     Some {| config := c;
             zapInstance := Some {| logger_id := S (build_calls w);
                                    logger_config := package_zap_config (cfg_LogLevel c);
                                    callerSkip := 1 |} |}) ∧
    (∀ err, build_error (package_zap_config (cfg_LogLevel c)) (S (build_calls w)) = Some err →
       r = Some err ∧ heap w2 = heap w1).
Proof.
  intros Hnil.
  destruct (L_first_access_logger build_error w Hnil) as (w1 & HL & Hset & Hcalls & Hheap).
  exists (length (heap w)), w1.
  unfold Configure, zap_Build. rewrite Hcalls.
  destruct (build_error (package_zap_config (cfg_LogLevel c)) (S (build_calls w)))
    as [err|] eqn:E.
  - eexists; eexists. split; [exact HL|]. split; [reflexivity|].
    split; [apply L_when_set; exact Hset|].
    split; [discriminate|]. intros err' [= <-]. split; reflexivity.
  - cbn [heap]. rewrite Hheap.
    eexists; eexists. split; [exact HL|]. split; [reflexivity|].
    split; [apply L_when_set; exact Hset|].
    split; [|discriminate]. intros _. split; [reflexivity|].
    cbn. apply list_lookup_insert_eq. eapply lookup_lt_Some. exact Hheap.
Qed.

Lemma Configure_on_default_logger_witness :
  ∃ a w1 r w2,
    L build_first_only initial_world = (Some a, w1) ∧
    Configure build_first_only (Some a) NewProductionConfig w1 = (Returned r, w2) ∧
    L build_first_only w2 = (Some a, w2) ∧
    (build_first_only (package_zap_config (cfg_LogLevel NewProductionConfig))
       (S (build_calls initial_world)) = None →
     r = None ∧
     heap w2 !! a =
     Some {| config := NewProductionConfig;
             zapInstance :=
               Some {| logger_id := S (build_calls initial_world);
                       logger_config := package_zap_config (cfg_LogLevel NewProductionConfig);
                       callerSkip := 1 |} |}) ∧
    (∀ err, build_first_only (package_zap_config (cfg_LogLevel NewProductionConfig))
              (S (build_calls initial_world)) = Some err →
       r = Some err ∧ heap w2 = heap w1).
Proof.
  apply (Configure_on_default_logger build_first_only NewProductionConfig initial_world).
  reflexivity.
Defined.

(** X12. The logger a first [L()] creates carries the zero [Config], not
    [NewProductionConfig]: its sink is built at level Fatal, it emits an
    empty application name and version, files fields under ["payload"],
    and its [RequestHTTP] emits both bodies as given, whatever their
    length. *)
Theorem default_logger_is_unconfigured (build_error : zap_Config → nat → option string)
    (w : world) :
  sukiLogger w = None →
  build_error (package_zap_config 5) (build_calls w) = None →
  ∃ a w' s lg,
    L build_error w = (Some a, w') ∧
    heap w' !! a = Some s ∧
    zapInstance s = Some lg ∧
    Level (logger_config lg) = zapcore_Level_value FatalLevel ∧
    appKey s = "payload" ∧
    (∀ message request response args,
       ∃ e, RequestHTTP s message request response args = Logged lg e ∧
            find_field "app_name" (entry_fields e) = Some (zap_String "app_name" "") ∧
            find_field "version" (entry_fields e) = Some (zap_String "version" "") ∧
            data_entry "http_request" (entry_fields e) = Some (VHTTPRequestInfo request) ∧
            data_entry "http_response" (entry_fields e) = Some (VHTTPResponseInfo response)).
Proof.
  intros Hnil Hok.
  destruct (L_first_access_logger build_error w Hnil) as (w' & HL & _ & _ & Hheap).
  rewrite Hok in Hheap.
  eexists; eexists; eexists; eexists.
  split; [exact HL|]. split; [exact Hheap|].
  split; [reflexivity|]. split; [reflexivity|]. split; [reflexivity|].
  intros message request response args.
  rewrite RequestHTTP_closed. cbn [zapInstance zap_log].
  eexists. split; [reflexivity|].
  split; [reflexivity|]. split; [reflexivity|].
  unfold data_entry, data_of. cbn.
  split.
  - rewrite lookup_insert_ne by discriminate. rewrite lookup_insert_eq.
    destruct request; reflexivity.
  - rewrite lookup_insert_eq. destruct response; reflexivity.
Qed.

Lemma default_logger_is_unconfigured_witness :
  ∃ a w' s lg,
    L build_always_ok initial_world = (Some a, w') ∧
    heap w' !! a = Some s ∧
    zapInstance s = Some lg ∧
    Level (logger_config lg) = zapcore_Level_value FatalLevel ∧
    appKey s = "payload" ∧
    (∀ message request response args,
       ∃ e, RequestHTTP s message request response args = Logged lg e ∧
            find_field "app_name" (entry_fields e) = Some (zap_String "app_name" "") ∧
            find_field "version" (entry_fields e) = Some (zap_String "version" "") ∧
            data_entry "http_request" (entry_fields e) = Some (VHTTPRequestInfo request) ∧
            data_entry "http_response" (entry_fields e) = Some (VHTTPResponseInfo response)).
Proof.
  apply (default_logger_is_unconfigured build_always_ok initial_world); reflexivity.
Defined.

(** X13. When the build inside a first [L()] fails, the logger [L]
    returns has a nil sink, and each of its nine emission methods
    dereferences nil instead of emitting. *)
Theorem default_logger_without_sink (build_error : zap_Config → nat → option string)
    (w : world) (err : string) :
  sukiLogger w = None →
  build_error (package_zap_config 5) (build_calls w) = Some err →
  ∃ a w' s,
    L build_error w = (Some a, w') ∧
    heap w' !! a = Some s ∧
    (∀ lvl m message args,
       (lvl, m) ∈ leveled_methods → m s message args = NilDereference) ∧
    (∀ message kafkaMessage kafkaResult args,
       RequestKafka s message kafkaMessage kafkaResult args = NilDereference) ∧
    (∀ message request response args,
       RequestHTTP s message request response args = NilDereference) ∧
    (∀ message event args, Event s message event args = NilDereference).
Proof.
  intros Hnil Herr.
  destruct (L_first_access_logger build_error w Hnil) as (w' & HL & _ & _ & Hheap).
  rewrite Herr in Hheap.
  eexists; eexists; eexists.
  split; [exact HL|]. split; [exact Hheap|].
  split; [|split; [|split]].
  - intros lvl m message args Hin. unfold leveled_methods in Hin.
    repeat (apply elem_of_cons in Hin as [Heq | Hin];
            [injection Heq as -> ->; reflexivity|]).
    apply elem_of_nil in Hin. contradiction.
  - intros. unfold RequestKafka. rewrite request_scan_closed. reflexivity.
  - intros. rewrite RequestHTTP_closed. reflexivity.
  - intros. unfold Event. rewrite request_scan_closed. reflexivity.
Qed.

Lemma default_logger_without_sink_witness :
  ∃ a w' s,
    L build_always_fails initial_world = (Some a, w') ∧
    heap w' !! a = Some s ∧
    (∀ lvl m message args,
       (lvl, m) ∈ leveled_methods → m s message args = NilDereference) ∧
    (∀ message kafkaMessage kafkaResult args,
       RequestKafka s message kafkaMessage kafkaResult args = NilDereference) ∧
    (∀ message request response args,
       RequestHTTP s message request response args = NilDereference) ∧
    (∀ message event args, Event s message event args = NilDereference).
Proof.
  apply (default_logger_without_sink build_always_fails initial_world "cannot open sink");
    reflexivity.
Defined.

(** *** Every interleaving of two calls of [L] *)

Section Interleavings.

Variable build_error : zap_Config → nat → option string.

(** One step of a call keeps the shared state sound for itself and for
    any other call. *)
Lemma L_step_ok (pc pc' : L_pc) (w w' : world) :
  L_step build_error pc w = (pc', w') →
  world_ok w → pc_ok pc w →
  world_ok w' ∧ pc_ok pc' w' ∧ (∀ q, pc_ok q w → pc_ok q w').
Proof.
  intros Hstep Hw Hpc. destruct pc; cbn [L_step] in Hstep.
  - destruct (sukiLogger w) as [a|] eqn:E; injection Hstep as <- <-;
      (split; [exact Hw|]; split; [|tauto]); cbn; [rewrite E; eauto | exact I].
  - destruct (zap_Build build_error _ 1 w) as [r w1] eqn:EB.
    injection Hstep as <- <-.
    destruct (zap_Build_keeps_memory build_error
                (package_zap_config (zapcore_Level_value FatalLevel)) 1 w)
      as (Hs & Hh & _).
    rewrite EB in Hs, Hh. cbn [snd] in Hs, Hh.
    split; [|split; [exact I|]].
    + intros a Ha. rewrite Hs in Ha. rewrite Hh. apply Hw. exact Ha.
    + intros q Hq. destruct q; cbn in Hq |- *; try exact I.
      * rewrite Hs. exact Hq.
      * rewrite Hh. exact Hq.
  - injection Hstep as <- <-.
    split; [|split].
    + intros a Ha. cbn in Ha |- *. injection Ha as <-.
      rewrite length_app. cbn. lia.
    + cbn. eauto.
    + intros q Hq. destruct q; cbn in Hq |- *; try exact I.
      * eauto.
      * destruct Hq as (a & -> & Ha). exists a. split; [reflexivity|].
        rewrite length_app. cbn. lia.
  - injection Hstep as <- <-.
    split; [exact Hw|]. split; [|tauto].
    cbn in Hpc |- *. destruct Hpc as [a Ha]. exists a.
    split; [exact Ha | apply Hw; exact Ha].
  - injection Hstep as <- <-. tauto.
Qed.

Lemma sched_step_ok (st : two_calls) (g : goroutine) :
  calls_ok st → calls_ok (sched_step build_error st g).
Proof.
  intros (Hw & H1 & H2). unfold sched_step. destruct g.
  - destruct (L_step build_error (pc1 st) (shared st)) as [pc w'] eqn:E.
    destruct (L_step_ok _ _ _ _ E Hw H1) as (Hw' & Hpc & Hother).
    split; [exact Hw'|]. split; [exact Hpc | apply Hother; exact H2].
  - destruct (L_step build_error (pc2 st) (shared st)) as [pc w'] eqn:E.
    destruct (L_step_ok _ _ _ _ E Hw H2) as (Hw' & Hpc & Hother).
    split; [exact Hw'|]. split; [apply Hother; exact H1 | exact Hpc].
Qed.

Lemma schedule_ok (sched : list goroutine) (st : two_calls) :
  calls_ok st → calls_ok (fold_left (sched_step build_error) sched st).
Proof.
  revert st. induction sched as [|g rest IH]; intros st Hst; [exact Hst|].
  cbn [fold_left]. apply IH, sched_step_ok, Hst.
Qed.

(** What one step can add to the counts of builds, sinks and loggers. *)
Lemma L_step_counts (pc pc' : L_pc) (w w' : world) :
  L_step build_error pc w = (pc', w') →
  (build_calls w' + past_build pc ≤ build_calls w + past_build pc')%nat ∧
  (sinks_built w' + past_build pc ≤ sinks_built w + past_build pc')%nat ∧
  (length (heap w') + past_store pc ≤ length (heap w) + past_store pc')%nat.
Proof.
  intros Hstep. destruct pc; cbn [L_step] in Hstep.
  - destruct (sukiLogger w); injection Hstep as <- <-; cbn; lia.
  - destruct (zap_Build build_error _ 1 w) as [r w1] eqn:EB.
    injection Hstep as <- <-.
    destruct (zap_Build_keeps_memory build_error
                (package_zap_config (zapcore_Level_value FatalLevel)) 1 w)
      as (_ & Hh & Hc).
    pose proof (zap_Build_sinks build_error
                  (package_zap_config (zapcore_Level_value FatalLevel)) 1 w) as Hs.
    rewrite EB in Hh, Hc, Hs. cbn [snd] in Hh, Hc, Hs.
    rewrite Hh, Hc. cbn. lia.
  - injection Hstep as <- <-. unfold sinks_built. cbn.
    rewrite length_app. cbn. lia.
  - injection Hstep as <- <-. cbn. lia.
  - injection Hstep as <- <-. cbn. lia.
Qed.

Lemma schedule_counts (sched : list goroutine) (st : two_calls) (b k h : nat) :
  (build_calls (shared st) ≤ b + past_build (pc1 st) + past_build (pc2 st))%nat →
  (sinks_built (shared st) ≤ k + past_build (pc1 st) + past_build (pc2 st))%nat →
  (length (heap (shared st)) ≤ h + past_store (pc1 st) + past_store (pc2 st))%nat →
  let st' := fold_left (sched_step build_error) sched st in
  (build_calls (shared st') ≤ b + 2)%nat ∧
  (sinks_built (shared st') ≤ k + 2)%nat ∧
  (length (heap (shared st')) ≤ h + 2)%nat.
Proof.
  revert st. induction sched as [|g rest IH]; intros st Hb Hk Hh.
  - cbn.
    assert (past_build (pc1 st) ≤ 1)%nat by (destruct (pc1 st); cbn; lia).
    assert (past_build (pc2 st) ≤ 1)%nat by (destruct (pc2 st); cbn; lia).
    assert (past_store (pc1 st) ≤ 1)%nat by (destruct (pc1 st); cbn; lia).
    assert (past_store (pc2 st) ≤ 1)%nat by (destruct (pc2 st); cbn; lia).
    lia.
  - cbn [fold_left]. apply IH; unfold sched_step; destruct g;
      match goal with
      | |- context [L_step build_error ?pc ?w] =>
          destruct (L_step build_error pc w) as [pc' w'] eqn:E;
          destruct (L_step_counts _ _ _ _ E) as (Cb & Ck & Ch)
      end; cbn [pc1 pc2 shared]; lia.
Qed.

End Interleavings.

(** X14. However two calls of [L] interleave, a call that has finished
    returned a non-nil pointer, and that pointer addresses an allocated
    logger: the race on first access can duplicate the instance but never
    yields nil. *)
Theorem L_never_returns_nil (build_error : zap_Config → nat → option string)
    (sched : list goroutine) (w : world) :
  world_ok w →
  (∀ r, pc1 (run_schedule build_error sched w) = L_done r →
        ∃ a s, r = Some a ∧ heap (shared (run_schedule build_error sched w)) !! a = Some s) ∧
  (∀ r, pc2 (run_schedule build_error sched w) = L_done r →
        ∃ a s, r = Some a ∧ heap (shared (run_schedule build_error sched w)) !! a = Some s).
Proof.
  intros Hw.
  assert (Hok : calls_ok (run_schedule build_error sched w)).
  { apply schedule_ok. split; [exact Hw | split; exact I]. }
  destruct Hok as (_ & H1 & H2).
  split; intros r Hr; [rewrite Hr in H1 | rewrite Hr in H2];
    [destruct H1 as (a & -> & Ha) | destruct H2 as (a & -> & Ha)];
    apply lookup_lt_is_Some in Ha; destruct Ha as [s Hs]; eauto.
Qed.

Lemma L_never_returns_nil_witness :
  (∀ r, pc1 (run_schedule build_always_fails racing_schedule initial_world) = L_done r →
        ∃ a s, r = Some a ∧
               heap (shared (run_schedule build_always_fails racing_schedule initial_world)) !! a
               = Some s) ∧
  (∀ r, pc2 (run_schedule build_always_fails racing_schedule initial_world) = L_done r →
        ∃ a s, r = Some a ∧
               heap (shared (run_schedule build_always_fails racing_schedule initial_world)) !! a
               = Some s).
Proof.
  apply (L_never_returns_nil build_always_fails racing_schedule initial_world).
  intros a Ha. discriminate Ha.
Defined.

(** X15. However two calls of [L] interleave, together they call [Build]
    at most twice, construct at most two sinks and allocate at most two
    loggers. *)
Theorem two_calls_build_at_most_twice (build_error : zap_Config → nat → option string)
    (sched : list goroutine) (w : world) :
  (build_calls (shared (run_schedule build_error sched w)) ≤ build_calls w + 2)%nat ∧
  (sinks_built (shared (run_schedule build_error sched w)) ≤ sinks_built w + 2)%nat ∧
  (length (heap (shared (run_schedule build_error sched w))) ≤ length (heap w) + 2)%nat.
Proof.
  unfold run_schedule. apply schedule_counts; cbn; lia.
Qed.

(** X16. Once the package variable is set, calls of [L] are safe under
    every interleaving: each finished call returns the address the
    variable holds, and the shared state (variable, heap, backend) is left
    untouched. *)
Theorem L_after_initialisation (build_error : zap_Config → nat → option string)
    (sched : list goroutine) (w : world) (a : nat) :
  sukiLogger w = Some a →
  shared (run_schedule build_error sched w) = w ∧
  (∀ r, pc1 (run_schedule build_error sched w) = L_done r → r = Some a) ∧
  (∀ r, pc2 (run_schedule build_error sched w) = L_done r → r = Some a).
Proof.
  intros Hset.
  assert (Hinv : ∀ st, shared st = w → pc_settled a (pc1 st) → pc_settled a (pc2 st) →
                 let st' := fold_left (sched_step build_error) sched st in
                 shared st' = w ∧ pc_settled a (pc1 st') ∧ pc_settled a (pc2 st')).
  { induction sched as [|g rest IH]; intros st Hsh H1 H2; [cbn; tauto|].
    cbn [fold_left]. apply IH; unfold sched_step; destruct g;
      [destruct (pc1 st) | destruct (pc2 st) | destruct (pc1 st) | destruct (pc2 st)
      | destruct (pc1 st) | destruct (pc2 st)];
      cbn in H1, H2 |- *; try contradiction; rewrite ?Hsh, ?Hset; cbn;
      try assumption; try exact I; try reflexivity. }
  destruct (Hinv {| pc1 := L_check; pc2 := L_check; shared := w |} eq_refl I I)
    as (Hsh & H1 & H2).
  fold (run_schedule build_error sched w) in Hsh, H1, H2.
  split; [exact Hsh|].
  split; intros r Hr; [rewrite Hr in H1; exact H1 | rewrite Hr in H2; exact H2].
Qed.

Lemma L_after_initialisation_witness :
  shared (run_schedule build_always_ok racing_schedule world_after_L) = world_after_L ∧
  (∀ r, pc1 (run_schedule build_always_ok racing_schedule world_after_L) = L_done r →
        r = Some 0%nat) ∧
  (∀ r, pc2 (run_schedule build_always_ok racing_schedule world_after_L) = L_done r →
        r = Some 0%nat).
Proof.
  apply (L_after_initialisation build_always_ok racing_schedule world_after_L 0).
  reflexivity.
Defined.

(** ** Optional arguments of the builders *)

(** X17. The optional trailing arguments of [WithTracing],
    [WithHTTPResponse] and [WithKafkaResult] count only by their first
    value: further values change nothing, and without any the request
    identifier is empty and the error is the zero [ErrorInfo]. *)
Theorem optional_arguments_first_only (traceID spanID body : string) (status : Z)
    (duration : float) :
  (∀ r rest, WithTracing traceID spanID (r :: rest) = WithTracing traceID spanID [r] ∧
             RequestID (WithTracing traceID spanID (r :: rest)) = r) ∧
  RequestID (WithTracing traceID spanID []) = "" ∧
  (∀ e rest, WithHTTPResponse status duration body (e :: rest)
             = WithHTTPResponse status duration body [e] ∧
             resp_Error (WithHTTPResponse status duration body (e :: rest)) = e) ∧
  resp_Error (WithHTTPResponse status duration body []) = {| Name := ""; StackTrace := "" |} ∧
  (∀ e rest, WithKafkaResult duration (e :: rest) = WithKafkaResult duration [e] ∧
             kafka_Error (WithKafkaResult duration (e :: rest)) = e) ∧
  kafka_Error (WithKafkaResult duration []) = {| Name := ""; StackTrace := "" |}.
Proof. repeat split. Qed.

(** ** A key collision in [appLogBuilder] *)

Lemma appLog_scan_nonempty (args : list value) (k : string) (v : value) :
  last_field k args = Some v →
  (0 <? Z.of_nat (size (bs_appData (appLog_scan args)))) = true.
Proof.
  intros Hk. apply Z.ltb_lt.
  destruct (size (bs_appData (appLog_scan args))) eqn:Esz; [|lia].
  apply map_size_empty_iff in Esz.
  assert (H : bs_appData (appLog_scan args) !! k = Some (stored_value v))
    by (unfold appLog_scan; rewrite appLog_scan_fields, Hk; reflexivity).
  rewrite Esz, lookup_empty in H. discriminate.
Qed.

(** X18. The fields object is written after the loop, under the
    application name, so an application named ["tracing"] that logs any
    field loses its [TraceInfo]: under ["tracing"] the record then holds
    the fields object, whatever [TraceInfo] the arguments held. *)
Theorem appName_tracing_hides_TraceInfo (s : SukiLogger) (args : list value)
    (k : string) (v : value) :
  AppName (config s) = "tracing" →
  last_field k args = Some v →
  ∃ m, tracing_of (appLogBuilder s args) = Some (VMap m) ∧
       m !! k = Some (stored_value v).
Proof.
  intros Happ Hk.
  exists (bs_appData (appLog_scan args)). split.
  - rewrite appLogBuilder_unfold.
    unfold tracing_of, data_entry, data_of. cbn.
    pose proof (appLog_scan_nonempty args k v Hk) as Hsize.
    cbn in Hsize. rewrite Hsize.
    unfold appKey. rewrite Happ. cbn. apply lookup_insert_eq.
  - unfold appLog_scan. rewrite appLog_scan_fields, Hk. reflexivity.
Qed.

Lemma appName_tracing_hides_TraceInfo_witness :
  ∃ m, tracing_of
         (appLogBuilder
            {| config := {| cfg_LogLevel := LevelInfo; AppName := "tracing";
                            Version := "1"; MaxBodySize := 0 |};
               zapInstance := Some sample_zap_logger |}
            [VLogField "user" (VString "u1"); VTraceInfo sample_trace]) = Some (VMap m) ∧
       m !! "user" = Some (stored_value (VString "u1")).
Proof.
  apply (appName_tracing_hides_TraceInfo
           {| config := {| cfg_LogLevel := LevelInfo; AppName := "tracing";
                           Version := "1"; MaxBodySize := 0 |};
              zapInstance := Some sample_zap_logger |}
           [VLogField "user" (VString "u1"); VTraceInfo sample_trace]
           "user" (VString "u1")); reflexivity.
Defined.
